(** * Hospital stay prediction: estimator, record store and result view

    A shallow embedding of [app.py] and [models.py].  The Flask views are
    state-passing functions over a [World] that holds the record store, the
    intake session, the store clock, the two random sources ([numpy.random]
    and [random]) and the optional text generator. *)

From Stdlib Require Import ZArith String Ascii List Lia Bool.
From stdpp Require Import base option list sorting gmap strings.

Local Open Scope string_scope.
Local Open Scope Z_scope.
Local Open Scope list_scope.

(** ** Random sources

    A source is a script of raw draws, the draws a test injects or a seeded
    generator makes in a run, together with the number of draws already
    taken.  Past the end of its script a source goes on counting, so it
    never repeats one value for ever: a loop that draws again until it sees
    a new index always ends, as it does with the library's generators. *)

Record Rng := mkRng { raw : list Z; pos : nat }.

(** The raw draw at position [i]. *)
Definition raw_at (g : Rng) (i : nat) : Z :=
  match raw g !! i with
  | Some r => r
  | None => Z.of_nat i
  end.

Definition rng_next (g : Rng) : Z * Rng :=
  (raw_at g (pos g), mkRng (raw g) (S (pos g))).

(** [numpy.random.randint(low, high)]: an integer of the half-open range
    [low, high).  Only called with [low < high] here. *)
Definition np_random_randint (low high : Z) (g : Rng) : Z * Rng :=
  let (r, g') := rng_next g in (low + r mod (high - low), g').

(** [Random._randbelow(n)]: a natural number below [n], for [0 < n]. *)
Definition randbelow (n : nat) (g : Rng) : nat * Rng :=
  let (r, g') := rng_next g in (Z.to_nat (r mod Z.of_nat n), g').

(** ** Intake data

    The dictionary that [detection] stores under ['detection_data'] always has
    the same six keys, so it is a record. *)

Record PatientData := mkPatientData {
  age : Z;
  severity : string;
  comorbidities : Z;
  temperature : string;
  blood_pressure : string;
  oxygen_saturation : string
}.

(** The choices of [DetectionForm.severity]. *)
Inductive Severity := low | medium | high.

Definition severity_value (s : Severity) : string :=
  match s with
  | low => "low"
  | medium => "medium"
  | high => "high"
  end.

(** ** The estimator, [predict_stay_length] *)

Definition predict_stay_length (patient_data : PatientData) (g : Rng)
  : Z * Rng :=
  let base_days := 3 in
  let base_days :=
    if 65 <? age patient_data then base_days + 2 else base_days in
  let base_days :=
    if String.eqb (severity patient_data) "high" then base_days + 3
    else if String.eqb (severity patient_data) "medium" then base_days + 1
    else base_days in
  let base_days :=
    if 2 <? comorbidities patient_data then base_days + 2 else base_days in
  let (jitter, g') := np_random_randint (-1) 3 g in
  let predicted_days := Z.max 1 (base_days + jitter) in
  (predicted_days, g').

(** The value of [base_days] when the jitter is drawn. *)
Definition base_days_of (patient_data : PatientData) : Z :=
  3 + (if 65 <? age patient_data then 2 else 0)
    + (if String.eqb (severity patient_data) "high" then 3
       else if String.eqb (severity patient_data) "medium" then 1 else 0)
    + (if 2 <? comorbidities patient_data then 2 else 0).

(** The estimator as section 4.1 of the specification words it. *)
Definition estimate_spec (a : Z) (s : Severity) (c : Z) (jitter : Z) : Z :=
  let base := 3 in
  let base := base + (if 65 <? a then 2 else 0) in
  let base := base + match s with high => 3 | medium => 1 | low => 0 end in
  let base := base + (if 2 <? c then 2 else 0) in
  Z.max 1 (base + jitter).

(** A source scripted to draw [r] a thousand times over. *)
Definition constant_rng (r : Z) : Rng := mkRng (replicate 1000 r) 0.

(** ** Exceptions and results

    A Python call either returns a value or raises. *)

Inductive Exception :=
| IntegrityError
| ValueError
| IndexError
| KeyError (key : string)
| OtherError (name : string).

Inductive result (A : Type) :=
| Ok (a : A)
| Raise (e : Exception).

Arguments Ok {A} a.
Arguments Raise {A} e.

Global Instance result_ret : MRet result := fun A a => Ok a.

Global Instance result_bind : MBind result := fun A B k m =>
  match m with
  | Ok a => k a
  | Raise e => Raise e
  end.

(** ** The models of [models.py]

    A table is the list of its rows in insertion order; an integer primary
    key is assigned by the store when a row is inserted. *)

Module User.
Record t := mk {
  id : Z;
  name : string;
  email : string;
  age : Z;
  contact : string;
  password_hash : string
}.
End User.

Module Precaution.
Record t := mk {
  id : Z;
  text : string
}.
End Precaution.

Module Prediction.
Record t := mk {
  id : Z;
  user_id : Z;
  age : Z;
  severity : string;
  comorbidities : Z;
  temperature : string;
  blood_pressure : string;
  oxygen_saturation : string;
  predicted_days : Z;
  timestamp : Z
}.

(** [Prediction(user_id=..., ..., predicted_days=...)]: a transient row; the
    store fills in the primary key and the [timestamp] default when the row
    is inserted. *)
Definition new (user_id age : Z) (severity : string) (comorbidities : Z)
    (temperature blood_pressure oxygen_saturation : string)
    (predicted_days : Z) : Z -> Z -> t :=
  fun id timestamp =>
    mk id user_id age severity comorbidities temperature blood_pressure
       oxygen_saturation predicted_days timestamp.
End Prediction.

Global Instance Precaution_eq_dec : EqDecision Precaution.t.
Proof. solve_decision. Defined.

Global Instance Prediction_eq_dec : EqDecision Prediction.t.
Proof. solve_decision. Defined.

Record Store := mkStore {
  users : list User.t;
  precautions : list Precaution.t;
  predictions : list Prediction.t
}.

Definition empty_store : Store := mkStore [] [] [].

(** The key of a new row: one more than the largest key in use, 1 for an
    empty table. *)
Definition next_rowid (ids : list Z) : Z := foldr Z.max 0 ids + 1.

(** [db.session.add(Precaution(text=text))]. *)
Definition add_precaution (s : Store) (text : string) : Store :=
  mkStore (users s)
          (precautions s ++
             [Precaution.mk (next_rowid (map Precaution.id (precautions s)))
                            text])
          (predictions s).

(** Modelled from the spec: the storage engine behind
    [db.session.add(prediction); db.session.commit()] is not part of the
    repository.  Following section 2 (a record store with referential
    integrity, predictions reference an account) and the
    [db.ForeignKey('users.id')] declaration of [Prediction.user_id], the
    commit at store time [now] is rejected when [user_id] references no row
    of [users], and a rejected commit leaves the store as it was; an accepted
    one appends the row with the next key and the [timestamp] default, the
    store clock. *)
Definition add_prediction (now : Z) (s : Store) (prediction : Z -> Z -> Prediction.t)
  : result Store :=
  let row := prediction (next_rowid (map Prediction.id (predictions s))) now in
  if existsb (fun u => User.id u =? Prediction.user_id row) (users s)
  then Ok (mkStore (users s) (precautions s) (predictions s ++ [row]))
  else Raise IntegrityError.

(** ** [init_db] *)

Definition seed_precautions : list string := [
  "Maintain proper hygiene to prevent hospital-acquired infections.";
  "Follow all prescribed medication schedules without missing doses.";
  "Engage in light physical activity as recommended by your healthcare provider.";
  "Ensure adequate hydration and nutrition during your hospital stay.";
  "Communicate openly with your care team about any concerns or symptoms.";
  "Get sufficient rest to support your body's healing process.";
  "Keep your environment clean and sanitized.";
  "Monitor your vital signs regularly as instructed.";
  "Report any new or worsening symptoms immediately.";
  "Follow discharge instructions carefully to prevent readmission."
].

(** [db.create_all()] creates missing tables and touches no row, so it does
    not show in the model. *)
Definition init_db (s : Store) : Store :=
  if (length (precautions s) =? 0)%nat
  then foldl add_precaution s seed_precautions
  else s.

(** ** [random.sample]

    The standard library has two ways to select [k] of [n] elements without
    replacement and takes the first when [n <= setsize], where [setsize] is
    21, plus [4 ** ceil(log(3 * k, 4))] when [k > 5]; the result view asks
    for at most five elements, so its [setsize] is 21.

    On a small population it works on a copy: the [i]-th draw [j] is below
    [n - i], the result takes [pool[j]] and the last live element moves into
    slot [j]. *)

Definition setsize (k : nat) : nat :=
  if (k <=? 5)%nat then 21%nat
  else (21 + 4 ^ Z.to_nat ((Z.log2_up (Z.of_nat (3 * k)) + 1) / 2))%nat.

Definition pool_pick {A} (pool : list A) (j : nat) : option (A * list A) :=
  match pool !! j, last pool with
  | Some x, Some y => Some (x, take (length pool - 1) (<[j := y]> pool))
  | _, _ => None
  end.

Fixpoint sample_pool {A} (pool : list A) (draws : list nat) : result (list A) :=
  match draws with
  | [] => Ok []
  | j :: draws' =>
      match pool_pick pool j with
      | Some (x, pool') =>
          rest ← sample_pool pool' draws'; Ok (x :: rest)
      | None => Raise IndexError
      end
  end.

(** The [k] draws of one call on a population of [n]: [randbelow(n)],
    [randbelow(n - 1)], ... *)
Fixpoint rng_draws (n k : nat) (g : Rng) : list nat * Rng :=
  match k with
  | O => ([], g)
  | S k' =>
      let (j, g1) := randbelow n g in
      let (js, g2) := rng_draws (n - 1) k' g1 in
      (j :: js, g2)
  end.

(** On a large population it keeps the set of the indices selected so far:
    [j = randbelow(n)], and again [j = randbelow(n)] while [j] is in the
    set.  The loop has no bound of its own.  Past its script the source
    counts, so each index below [n] comes up among [n] draws in a row, and
    the loop ends within [redraw_bound] further draws when an index is still
    free; [None] is the loop that would never end, all indices being taken. *)

Definition redraw_bound (n : nat) (g : Rng) : nat :=
  (length (raw g) - pos g + n)%nat.

Fixpoint draw_fresh (fuel n : nat) (selected : list nat) (g : Rng)
  : option (nat * Rng) :=
  let (j, g') := randbelow n g in
  if bool_decide (j ∈ selected) then
    match fuel with
    | O => None
    | S fuel' => draw_fresh fuel' n selected g'
    end
  else Some (j, g').

Fixpoint sample_set {A} (population : list A) (n k : nat)
    (selected : list nat) (g : Rng) : result (list A * Rng) :=
  match k with
  | O => Ok ([], g)
  | S k' =>
      match draw_fresh (redraw_bound n g) n selected g with
      | Some (j, g1) =>
          match population !! j with
          | Some x =>
              '(rest, g2) ← sample_set population n k' (j :: selected) g1;
              Ok (x :: rest, g2)
          | None => Raise IndexError
          end
      | None => Raise (OtherError "no index left to draw")
      end
  end.

Definition random_sample {A} (population : list A) (k : nat) (g : Rng)
  : result (list A * Rng) :=
  let n := length population in
  if (k <=? n)%nat then
    if (n <=? setsize k)%nat then
      let (draws, g') := rng_draws n k g in
      selected ← sample_pool population draws; Ok (selected, g')
    else sample_set population n k [] g
  else Raise ValueError.

(** What it means for a list of draws to respect the bounds [n], [n - 1],
    ... of successive [randbelow] calls. *)
Fixpoint draws_in_range (n : nat) (draws : list nat) : Prop :=
  match draws with
  | [] => True
  | j :: draws' => (j < n)%nat /\ draws_in_range (n - 1) draws'
  end.

(** ** Text helpers: [str.replace(old, "")] and [str.strip()]

    A character is a code point below 256. *)

Fixpoint remove_from (old : string) (skip : nat) (s : string) : string :=
  match s with
  | EmptyString => EmptyString
  | String c s' =>
      match skip with
      | S skip' => remove_from old skip' s'
      | O =>
          if String.prefix old s
          then remove_from old (String.length old - 1) s'
          else String c (remove_from old O s')
      end
  end.

(** [s.replace(old, "")]: every occurrence of [old], scanning from the left,
    is dropped; an empty [old] changes nothing. *)
Definition str_remove (s old : string) : string :=
  match old with
  | EmptyString => s
  | _ => remove_from old O s
  end.

(** The characters [str.isspace] accepts below 256. *)
Definition py_isspace (c : ascii) : bool :=
  let n := nat_of_ascii c in
  ((9 <=? n) && (n <=? 13) || (28 <=? n) && (n <=? 32)
   || (n =? 133) || (n =? 160))%nat.

Fixpoint str_lstrip (s : string) : string :=
  match s with
  | EmptyString => EmptyString
  | String c s' => if py_isspace c then str_lstrip s' else s
  end.

Definition str_strip (s : string) : string :=
  String.rev (str_lstrip (String.rev (str_lstrip s))).

(** Whether a string begins, or ends, with a character [str.strip] removes. *)
Definition starts_with_space (s : string) : bool :=
  match s with
  | String c _ => py_isspace c
  | EmptyString => false
  end.

Definition ends_with_space (s : string) : bool :=
  starts_with_space (String.rev s).


(** ** The text generator

    [generator] is the module-level pipeline, or [None] when its construction
    raised.  A call takes the prompt, [num_return_sequences] and [max_length]
    and returns a list of dictionaries or raises; the first argument is the
    number of calls made before, so successive calls can differ. *)

Definition Generator : Type :=
  nat -> string -> nat -> nat -> result (list (gmap string string)).

(** Lines 42-45: [try: generator = pipeline(...) except: generator = None]. *)
Definition load_generator (pipeline : result Generator) : option Generator :=
  match pipeline with
  | Ok g => Some g
  | Raise _ => None
  end.

Definition fallback_suggestions : list string := [
  "Stay hydrated and follow your treatment plan.";
  "Communicate openly with your healthcare team.";
  "Get adequate rest to support your recovery.";
  "Follow all medication instructions precisely.";
  "Report any new symptoms to your nurse immediately."
].

Definition prompt : string := "Medical advice for reducing hospital stay: ".

(** [item['generated_text'].replace(prompt, "").strip()]. *)
Definition clean_item (item : gmap string string) : result string :=
  match item !! "generated_text" with
  | Some generated_text => Ok (str_strip (str_remove generated_text prompt))
  | None => Raise (KeyError "generated_text")
  end.

Fixpoint clean_items (generated : list (gmap string string))
  : result (list string) :=
  match generated with
  | [] => Ok []
  | item :: generated' =>
      s ← clean_item item;
      rest ← clean_items generated';
      Ok (s :: rest)
  end.

(** The body of the [try] of lines 186-189. *)
Definition try_generate (g : Generator) (calls : nat) : result (list string) :=
  generated ← g calls prompt 5%nat 60%nat;
  clean_items generated.

(** Lines 184-201: the suggestions and the number of generator calls made. *)
Definition make_suggestions (generator : option Generator) (calls : nat)
  : list string * nat :=
  match generator with
  | Some g =>
      match try_generate g calls with
      | Ok suggestions => (suggestions, S calls)
      | Raise _ => (fallback_suggestions, S calls)
      end
  | None => (fallback_suggestions, calls)
  end.

(** ** The world of a request *)

Record World := mkWorld {
  db : Store;
  session : gmap string PatientData;
  clock : Z;
  np_random : Rng;
  py_random : Rng;
  generator : option Generator;
  generator_calls : nat
}.

Definition set_db (s : Store) (w : World) : World :=
  mkWorld s (session w) (clock w) (np_random w) (py_random w)
          (generator w) (generator_calls w).

Definition set_session (m : gmap string PatientData) (w : World) : World :=
  mkWorld (db w) m (clock w) (np_random w) (py_random w)
          (generator w) (generator_calls w).

Definition set_clock (t : Z) (w : World) : World :=
  mkWorld (db w) (session w) t (np_random w) (py_random w)
          (generator w) (generator_calls w).

Definition set_np_random (g : Rng) (w : World) : World :=
  mkWorld (db w) (session w) (clock w) g (py_random w)
          (generator w) (generator_calls w).

Definition set_py_random (g : Rng) (w : World) : World :=
  mkWorld (db w) (session w) (clock w) (np_random w) g
          (generator w) (generator_calls w).

Definition set_generator_calls (n : nat) (w : World) : World :=
  mkWorld (db w) (session w) (clock w) (np_random w) (py_random w)
          (generator w) n.

(** Module start-up: [init_db(app)] and the construction of the generator. *)
Definition startup (s : Store) (pipeline : result Generator) (now : Z)
    (np py : Rng) : World :=
  mkWorld (init_db s) ∅ now np py (load_generator pipeline) 0.

(** ** Responses

    A view returns a redirect or a rendered template with its context; an
    exception that leaves the view is answered by the framework with an
    error response. *)

Inductive Response :=
| Redirect (endpoint : string)
| RenderDetection
| RenderMain (user_id : Z) (predictions : list Prediction.t)
| RenderOutput (predicted_days : Z) (precautions : list Precaution.t)
               (suggestions : list string) (patient_data : PatientData)
| InternalServerError (e : Exception).

(** ** [main]: the recent history of an account

    [order_by(Prediction.timestamp.desc())] names no second key, so rows with
    equal timestamps are not ordered by the query; the model sorts the table
    scan stably, which leaves them in insertion order.  The timestamp is the
    store clock in whole seconds. *)

Fixpoint insert_desc (p : Prediction.t) (l : list Prediction.t)
  : list Prediction.t :=
  match l with
  | [] => [p]
  | q :: l' =>
      if Prediction.timestamp p <? Prediction.timestamp q
      then q :: insert_desc p l'
      else p :: l
  end.

Definition order_by_timestamp_desc (l : list Prediction.t)
  : list Prediction.t :=
  foldr insert_desc [] l.

Definition recent_predictions (user_id : Z) (s : Store) : list Prediction.t :=
  take 5 (order_by_timestamp_desc
            (filter (fun p => Prediction.user_id p = user_id) (predictions s))).

Definition main (current_user_id : Z) (w : World) : Response * World :=
  (RenderMain current_user_id (recent_predictions current_user_id (db w)), w).

(** ** [detection]

    [form] is [Some data] when [form.validate_on_submit()] holds (validation
    itself is the form library's) and [None] otherwise. *)
Definition detection (form : option PatientData) (w : World)
  : Response * World :=
  match form with
  | Some data =>
      (Redirect "output",
       set_session (<["detection_data" := data]> (session w)) w)
  | None => (RenderDetection, w)
  end.

(** ** [output]: the result view *)

(** Lines 180-181. *)
Definition select_precautions (s : Store) (g : Rng)
  : result (list Precaution.t * Rng) :=
  let precautions := precautions s in
  random_sample precautions (Nat.min 5 (length precautions)) g.

Definition output (current_user_id : Z) (w : World) : Response * World :=
  match session w !! "detection_data" with
  | None => (Redirect "detection", w)
  | Some patient_data =>
      let (predicted_days, np') :=
        predict_stay_length patient_data (np_random w) in
      let w := set_np_random np' w in
      let prediction :=
        Prediction.new current_user_id
          (age patient_data) (severity patient_data)
          (comorbidities patient_data) (temperature patient_data)
          (blood_pressure patient_data) (oxygen_saturation patient_data)
          predicted_days in
      match add_prediction (clock w) (db w) prediction with
      | Raise e => (InternalServerError e, w)
      | Ok db' =>
          let w := set_db db' w in
          match select_precautions (db w) (py_random w) with
          | Raise e => (InternalServerError e, w)
          | Ok (selected_precautions, py') =>
              let w := set_py_random py' w in
              let (suggestions, calls) :=
                make_suggestions (generator w) (generator_calls w) in
              let w := set_generator_calls calls w in
              (RenderOutput predicted_days selected_precautions suggestions
                            patient_data, w)
          end
      end
  end.

(** ** [DetectionForm]

    The validators of the six fields, applied to the data after coercion
    (the two integer fields hold integers).  [DataRequired] rejects data that
    is false in a boolean context: the integer 0, and a string that is empty
    once stripped.  [NumberRange] bounds are inclusive.  A [SelectField] only
    accepts one of its choices.  [Regexp] matches from the start of the
    string, and [$] matches at its end or before a final newline. *)

Definition data_required_int (n : Z) : bool := negb (n =? 0).

Definition data_required_str (s : string) : bool :=
  negb (String.eqb (str_strip s) "").

Definition number_range (min max n : Z) : bool := (min <=? n) && (n <=? max).

Definition severity_choices : list string := ["low"; "medium"; "high"].

(** [\d] on characters below 256. *)
Definition is_digit (c : ascii) : bool :=
  let n := nat_of_ascii c in ((48 <=? n) && (n <=? 57))%nat.

Definition starts_with_digit (s : string) : bool :=
  match s with
  | String c _ => is_digit c
  | EmptyString => false
  end.

(** What is left of [s] after its leading digits. *)
Fixpoint skip_digits (s : string) : string :=
  match s with
  | String c s' => if is_digit c then skip_digits s' else s
  | EmptyString => EmptyString
  end.

(** [$]. *)
Definition at_end (s : string) : bool :=
  match s with
  | EmptyString => true
  | String c EmptyString => (nat_of_ascii c =? 10)%nat
  | _ => false
  end.

(** [^\d+(\.\d+)?$], the pattern of [temperature] and [oxygen_saturation]. *)
Definition match_decimal (s : string) : bool :=
  starts_with_digit s &&
  (at_end (skip_digits s) ||
   match skip_digits s with
   | String "." fraction =>
       starts_with_digit fraction && at_end (skip_digits fraction)
   | _ => false
   end).

(** [^\d+/\d+$], the pattern of [blood_pressure]. *)
Definition match_pressure (s : string) : bool :=
  starts_with_digit s &&
  match skip_digits s with
  | String "/" diastolic =>
      starts_with_digit diastolic && at_end (skip_digits diastolic)
  | _ => false
  end.

Definition DetectionForm_validate (data : PatientData) : bool :=
  data_required_int (age data) && number_range 1 120 (age data) &&
  existsb (String.eqb (severity data)) severity_choices &&
  data_required_str (severity data) &&
  data_required_int (comorbidities data) &&
  number_range 0 10 (comorbidities data) &&
  data_required_str (temperature data) && match_decimal (temperature data) &&
  data_required_str (blood_pressure data) &&
  match_pressure (blood_pressure data) &&
  data_required_str (oxygen_saturation data) &&
  match_decimal (oxygen_saturation data).

(** A posted intake form: [form.validate_on_submit()] decides whether the
    view stores it. *)
Definition submit_detection (data : PatientData) (w : World)
  : Response * World :=
  detection (if DetectionForm_validate data then Some data else None) w.

(** The rank that [predict_stay_length] gives a severity string. *)
Definition severity_rank (s : string) : Z :=
  if String.eqb s "high" then 2 else if String.eqb s "medium" then 1 else 0.


(** ** Logged-in requests

    [load_user] is [User.query.get(int(user_id))]. *)
Definition load_user (user_id : Z) (s : Store) : option User.t :=
  List.find (fun u => User.id u =? user_id) (users s).

(** [@login_required]: the view runs on behalf of the account that the login
    session names and [load_user] finds; any other request is sent to
    [login_manager.login_view]. *)
Definition login_required (view : Z -> World -> Response * World)
    (logged_in : option Z) (w : World) : Response * World :=
  match logged_in with
  | Some user_id =>
      match load_user user_id (db w) with
      | Some current_user => view (User.id current_user) w
      | None => (Redirect "login", w)
      end
  | None => (Redirect "login", w)
  end.

(** ** Runs

    What can happen to a world: an intake submission, a request for the
    result view or for the main page on behalf of an account, and time
    passing on the store clock. *)

Inductive Event :=
| Submit (form : option PatientData)
| ViewOutput (current_user_id : Z)
| ViewMain (current_user_id : Z)
| Elapse (seconds : nat).

Definition step (e : Event) (w : World) : World :=
  match e with
  | Submit form => snd (detection form w)
  | ViewOutput u => snd (output u w)
  | ViewMain u => snd (main u w)
  | Elapse d => set_clock (clock w + Z.of_nat d) w
  end.

Definition run (es : list Event) (w : World) : World :=
  foldl (fun w e => step e w) w es.

(** ** Accounts: [register], [login], [logout]

    [werkzeug.security] is a library, so its two functions are parameters of
    the views.  [generate_password_hash] salts the password with fresh
    random characters: the salt is its first argument here. *)

Record PasswordHasher := mkPasswordHasher {
  generate_password_hash : string -> string -> string;
  check_password_hash : string -> string -> bool
}.

(** [User.set_password] and [User.check_password]. *)
Definition set_password (h : PasswordHasher) (salt password : string)
    (user : User.t) : User.t :=
  User.mk (User.id user) (User.name user) (User.email user) (User.age user)
          (User.contact user) (generate_password_hash h salt password).

Definition check_password (h : PasswordHasher) (user : User.t)
    (password : string) : bool :=
  check_password_hash h (User.password_hash user) password.

(** The data of a [RegistrationForm] and of a [LoginForm] that validated. *)
Record RegistrationData := mkRegistrationData {
  form_name : string;
  form_email : string;
  form_age : Z;
  form_contact : string;
  form_password : string
}.

Record LoginData := mkLoginData {
  login_email : string;
  login_password : string
}.

(** [User.query.filter_by(email=email).first()]. *)
Definition find_by_email (email : string) (s : Store) : option User.t :=
  List.find (fun u => String.eqb (User.email u) email) (users s).

(** [db.session.add(user); db.session.commit()]: the row gets the next key;
    [email] is declared [unique=True], and a second row with a stored
    address is rejected. *)
Definition add_user (s : Store) (user : Z -> User.t) : result Store :=
  let row := user (next_rowid (map User.id (users s))) in
  if existsb (fun u => String.eqb (User.email u) (User.email row)) (users s)
  then Raise IntegrityError
  else Ok (mkStore (users s ++ [row]) (precautions s) (predictions s)).

(** A browser session: the world of its requests and the account id that
    the login library keeps in the session, if any. *)
Record Site := mkSite {
  world : World;
  logged_in_id : option Z
}.

Record Flash := mkFlash {
  message : string;
  category : string
}.

Inductive Page := HomePage | RegisterPage | LoginPage.

Inductive AccountResponse :=
| SeeOther (endpoint : string)
| Show (page : Page)
| ServerError (e : Exception).

Definition home (st : Site) : AccountResponse * list Flash * Site :=
  (Show HomePage, [], st).

(** [form] is [Some data] when [form.validate_on_submit()] holds.  A new
    [User] has no password hash until [set_password] gives it one. *)
Definition register (h : PasswordHasher) (salt : string)
    (form : option RegistrationData) (st : Site)
  : AccountResponse * list Flash * Site :=
  match form with
  | Some data =>
      match find_by_email (form_email data) (db (world st)) with
      | Some _ =>
          (SeeOther "login",
           [mkFlash "Email already registered. Please login." "danger"], st)
      | None =>
          let user := fun id =>
            User.mk id (form_name data) (form_email data) (form_age data)
                    (form_contact data) "" in
          let user := fun id =>
            set_password h salt (form_password data) (user id) in
          match add_user (db (world st)) user with
          | Ok db' =>
              (SeeOther "login",
               [mkFlash "Registration successful! Please login." "success"],
               mkSite (set_db db' (world st)) (logged_in_id st))
          | Raise e => (ServerError e, [], st)
          end
      end
  | None => (Show RegisterPage, [], st)
  end.

(** [login_user(user)] puts the id of the account into the session. *)
Definition login (h : PasswordHasher) (form : option LoginData) (st : Site)
  : AccountResponse * list Flash * Site :=
  match form with
  | Some data =>
      match find_by_email (login_email data) (db (world st)) with
      | Some user =>
          if check_password h user (login_password data)
          then (SeeOther "main", [mkFlash "Login successful!" "success"],
                mkSite (world st) (Some (User.id user)))
          else (Show LoginPage,
                [mkFlash "Invalid email or password." "danger"], st)
      | None =>
          (Show LoginPage,
           [mkFlash "Invalid email or password." "danger"], st)
      end
  | None => (Show LoginPage, [], st)
  end.

(** The account a request runs for: [load_user] on the id in the session. *)
Definition current_user (st : Site) : option User.t :=
  match logged_in_id st with
  | Some user_id => load_user user_id (db (world st))
  | None => None
  end.

(** [logout_user()] takes the account id out of the session and leaves the
    other keys of the session alone.  Without a current account the guard
    answers (its own message is the login library's and is left out). *)
Definition logout (st : Site) : AccountResponse * list Flash * Site :=
  match current_user st with
  | Some _ =>
      (SeeOther "home", [mkFlash "You have been logged out." "info"],
       mkSite (world st) None)
  | None => (SeeOther "login", [], st)
  end.

(** A view behind [@login_required], run in a browser session. *)
Definition guarded (view : Z -> World -> Response * World) (st : Site)
  : Response * Site :=
  let (response, w') := login_required view (logged_in_id st) (world st) in
  (response, mkSite w' (logged_in_id st)).

(** The requests of a browser session, and time passing. *)
Inductive Request :=
| GetHome
| PostRegister (salt : string) (form : option RegistrationData)
| PostLogin (form : option LoginData)
| GetLogout
| PostDetection (form : option PatientData)
| GetOutput
| GetMain
| Wait (seconds : nat).

Definition handle (h : PasswordHasher) (r : Request) (st : Site) : Site :=
  match r with
  | GetHome => snd (home st)
  | PostRegister salt form => snd (register h salt form st)
  | PostLogin form => snd (login h form st)
  | GetLogout => snd (logout st)
  | PostDetection form => snd (guarded (fun _ => detection form) st)
  | GetOutput => snd (guarded output st)
  | GetMain => snd (guarded main st)
  | Wait d => mkSite (step (Elapse d) (world st)) (logged_in_id st)
  end.

Definition serve (h : PasswordHasher) (rs : list Request) (st : Site) : Site :=
  foldl (fun st r => handle h r st) st rs.

(** Account keys and e-mail addresses are unique, and every prediction
    belongs to an account. *)
Definition accounts_wf (s : Store) : Prop :=
  NoDup (map User.id (users s)) /\
  NoDup (map User.email (users s)) /\
  Forall (fun p => Prediction.user_id p ∈ map User.id (users s))
         (predictions s).


(** ** Store invariants and history *)

Definition days_positive (s : Store) : Prop :=
  Forall (fun p => 1 <= Prediction.predicted_days p) (predictions s).

(** The workflow run twice for one account, [d] seconds apart. *)
Definition two_runs (u : Z) (d : nat) (w : World) : World :=
  run [ViewOutput u; Elapse d; ViewOutput u] w.

(** A list of rows in which no row is stamped later than a row before it. *)
Definition most_recent_first (l : list Prediction.t) : Prop :=
  StronglySorted
    (fun p q => Prediction.timestamp q <= Prediction.timestamp p) l.

(** Two runs add two distinct rows with non-decreasing timestamps, and the
    recent history of the account shows both, most recent first. *)
Definition history_shows_both_runs (u : Z) (d : nat) (w : World) : Prop :=
  let w' := two_runs u d w in
  exists r1 r2,
    predictions (db w') = predictions (db w) ++ [r1; r2] /\
    Prediction.id r1 <> Prediction.id r2 /\
    Prediction.timestamp r1 <= Prediction.timestamp r2 /\
    r1 ∈ recent_predictions u (db w') /\
    r2 ∈ recent_predictions u (db w') /\
    most_recent_first (recent_predictions u (db w')).

(** The seed data contract as section 6 of the specification lists it: an
    entry is a complete string, or the beginning of one followed by an
    ellipsis. *)
Inductive ContractEntry :=
| Verbatim (s : string)
| BeginsWith (s : string).

Definition seed_contract : list ContractEntry := [
  BeginsWith "Maintain proper hygiene";
  BeginsWith "Follow all prescribed medication schedules";
  BeginsWith "Engage in light physical activity";
  BeginsWith "Ensure adequate hydration and nutrition";
  BeginsWith "Communicate openly with your care team";
  BeginsWith "Get sufficient rest";
  Verbatim "Keep your environment clean and sanitized.";
  BeginsWith "Monitor your vital signs regularly";
  Verbatim "Report any new or worsening symptoms immediately.";
  BeginsWith "Follow discharge instructions carefully"
].

Definition meets_entry (e : ContractEntry) (s : string) : bool :=
  match e with
  | Verbatim t => String.eqb t s
  | BeginsWith t => String.prefix t s
  end.

Fixpoint meets_contract (es : list ContractEntry) (l : list string) : bool :=
  match es, l with
  | [], [] => true
  | e :: es', s :: l' => meets_entry e s && meets_contract es' l'
  | _, _ => false
  end.

(** Rows are stamped in table order, none later than the store clock. *)
Definition stamps_in_order (w : World) : Prop :=
  StronglySorted Z.le (map Prediction.timestamp (predictions (db w))) /\
  Forall (fun p => Prediction.timestamp p <= clock w) (predictions (db w)).

(** The six intake columns of a stored row. *)
Definition intake_of (p : Prediction.t) : PatientData :=
  mkPatientData (Prediction.age p) (Prediction.severity p)
    (Prediction.comorbidities p) (Prediction.temperature p)
    (Prediction.blood_pressure p) (Prediction.oxygen_saturation p).


(** ** Sample data *)

Definition sample_intake : PatientData :=
  mkPatientData 70 "high" 3 "98.6" "120/80" "95".

Definition sample_user : User.t :=
  User.mk 1 "Ada Moreau" "ada@example.org" 41 "15551234567" "scrypt:32768:8:1$x".

(** A freshly started application with one registered account, no working
    text generator and the store clock at 1000. *)
Definition fresh_world : World :=
  startup (mkStore [sample_user] [] []) (Raise (OtherError "OSError")) 1000
          (constant_rng 1) (constant_rng 0).

(** The same after a valid intake submission. *)
Definition intake_world : World :=
  snd (detection (Some sample_intake) fresh_world).

(** The account after five result views within the second of its intake. *)
Definition busy_world : World :=
  run [ViewOutput 1; ViewOutput 1; ViewOutput 1; ViewOutput 1; ViewOutput 1]
      intake_world.

(** A store that holds three precautions only. *)
Definition short_store : Store :=
  foldl add_precaution empty_store
        ["Rest when you are tired."; "Drink water."; "Walk every day."].

(** The intake world with a generator whose calls fail. *)
Definition failing_generator_world : World :=
  mkWorld (db intake_world) (session intake_world) (clock intake_world)
          (np_random intake_world) (py_random intake_world)
          (Some (fun _ _ _ _ => Raise (OtherError "RuntimeError"))) 0.

(** A hasher for examples: it keeps the salt and the password side by side
    and compares the password part. *)
Definition sample_hasher : PasswordHasher :=
  mkPasswordHasher
    (fun salt password =>
       String.app "toy$" (String.app password (String.app "$" salt)))
    (fun pwhash password =>
       String.prefix (String.app "toy$" (String.app password "$")) pwhash).

Definition sample_registration : RegistrationData :=
  mkRegistrationData "Noor Haddad" "noor@example.org" 67 "15557654321"
                     "correct horse".

(** A browser session on the sample world, with nobody logged in. *)
Definition fresh_site : Site := mkSite fresh_world None.


(** A browser session in which the sample account is logged in and has
    submitted an intake, after a second account has been registered. *)
Definition shared_site : Site :=
  snd (register sample_hasher "pepper" (Some sample_registration)
                (mkSite intake_world (Some 1))).

Definition second_user : User.t :=
  User.mk 2 "Noor Haddad" "noor@example.org" 67 "15557654321"
          (generate_password_hash sample_hasher "pepper" "correct horse").


(** Unfolds the accessors of a world built by the setters. *)
Ltac world_simpl :=
  cbn [db session clock np_random py_random generator generator_calls
       set_db set_session set_clock set_np_random set_py_random
       set_generator_calls users precautions predictions fst snd
       Prediction.new] in *.

(** * Properties *)

(** ** Random sources *)

Lemma np_random_randint_range (low high : Z) (g : Rng) :
  low < high ->
  low <= fst (np_random_randint low high g) < high.
Proof.
  intros Hlt. unfold np_random_randint, rng_next; simpl.
  pose proof (Z.mod_pos_bound (raw_at g (pos g)) (high - low)). lia.
Qed.

Lemma jitter_range (g : Rng) :
  -1 <= fst (np_random_randint (-1) 3 g) <= 2.
Proof. pose proof (np_random_randint_range (-1) 3 g). lia. Qed.

Lemma raw_at_constant (r : Z) (i : nat) :
  (i < 1000)%nat -> raw_at (constant_rng r) i = r.
Proof.
  intros Hi. unfold raw_at, constant_rng. cbn [raw].
  by rewrite lookup_replicate_2.
Qed.

(** Every value of the range is the draw of some source. *)
Lemma jitter_drawable (j : Z) :
  -1 <= j <= 2 ->
  fst (np_random_randint (-1) 3 (constant_rng (j + 1))) = j.
Proof.
  intros Hj. unfold np_random_randint, rng_next. cbn [fst].
  rewrite raw_at_constant by (cbn; lia). rewrite Z.mod_small; lia.
Qed.

Lemma randbelow_lt (n : nat) (g : Rng) :
  (0 < n)%nat -> (fst (randbelow n g) < n)%nat.
Proof.
  intros Hn. unfold randbelow, rng_next; simpl.
  pose proof (Z.mod_pos_bound (raw_at g (pos g)) (Z.of_nat n)). lia.
Qed.

(** ** The estimator *)

Lemma severity_value_high (s : Severity) :
  String.eqb (severity_value s) "high" = match s with high => true | _ => false end.
Proof. by destruct s. Qed.

Lemma severity_value_medium (s : Severity) :
  String.eqb (severity_value s) "medium" =
  match s with medium => true | _ => false end.
Proof. by destruct s. Qed.

Lemma predict_stay_length_unfold (patient_data : PatientData) (g : Rng) :
  predict_stay_length patient_data g =
  (Z.max 1 (base_days_of patient_data + fst (np_random_randint (-1) 3 g)),
   snd (np_random_randint (-1) 3 g)).
Proof.
  unfold predict_stay_length, base_days_of, np_random_randint, rng_next.
  cbn [fst snd].
  destruct (65 <? age patient_data),
           (String.eqb (severity patient_data) "high"),
           (String.eqb (severity patient_data) "medium"),
           (2 <? comorbidities patient_data); reflexivity.
Qed.

Lemma predict_stay_length_ge_1 (patient_data : PatientData) (g : Rng) :
  1 <= fst (predict_stay_length patient_data g).
Proof. rewrite predict_stay_length_unfold; simpl. lia. Qed.

(** C1: for an intake with age in 1..120, a severity among low, medium and
    high and a comorbidity count in 0..10, and a jitter [j] of -1..2 drawn
    from the source, the estimator returns [max 1 (base + j)] with [base] 3,
    plus 2 above 65 years, plus 3 (high) or 1 (medium), plus 2 above two
    comorbidities; with jitter 0 the intake (70, high, 3) gives 10. *)
Theorem C1_estimator_formula
    (a : Z) (s : Severity) (c : Z) (t bp o2 : string) (g : Rng) (j : Z) :
  1 <= a <= 120 ->
  0 <= c <= 10 ->
  j ∈ [-1; 0; 1; 2] ->
  fst (np_random_randint (-1) 3 g) = j ->
  fst (predict_stay_length (mkPatientData a (severity_value s) c t bp o2) g)
    = estimate_spec a s c j
  /\ (a = 70 -> s = high -> c = 3 -> j = 0 ->
      fst (predict_stay_length (mkPatientData a (severity_value s) c t bp o2) g)
        = 10).
Proof.
  intros _ _ _ Hj.
  assert (Hmain :
    fst (predict_stay_length (mkPatientData a (severity_value s) c t bp o2) g)
      = estimate_spec a s c j).
  { rewrite predict_stay_length_unfold, Hj. unfold base_days_of, estimate_spec.
    simpl. rewrite severity_value_high, severity_value_medium.
    destruct (65 <? a), s, (2 <? c); reflexivity. }
  split; [exact Hmain|].
  intros -> -> -> ->. rewrite Hmain. reflexivity.
Qed.

Lemma C1_estimator_formula_witness :
  fst (predict_stay_length
         (mkPatientData 70 (severity_value high) 3 "98.6" "120/80" "95")
         (constant_rng 1))
    = estimate_spec 70 high 3 0
  /\ (70 = 70 -> high = high -> 3 = 3 -> 0 = 0 ->
      fst (predict_stay_length
             (mkPatientData 70 (severity_value high) 3 "98.6" "120/80" "95")
             (constant_rng 1))
        = 10).
Proof.
  apply (C1_estimator_formula 70 high 3 "98.6" "120/80" "95" (constant_rng 1) 0).
  - lia.
  - lia.
  - set_solver.
  - reflexivity.
Defined.

(** C10: two intakes that agree on age, severity and comorbidity count get
    the same prediction from the same source, whatever their temperature,
    blood pressure and oxygen saturation. *)
Theorem C10_vital_signs_do_not_interfere (pd1 pd2 : PatientData) (g : Rng) :
  age pd1 = age pd2 ->
  severity pd1 = severity pd2 ->
  comorbidities pd1 = comorbidities pd2 ->
  predict_stay_length pd1 g = predict_stay_length pd2 g.
Proof.
  intros Ha Hs Hc. rewrite !predict_stay_length_unfold.
  unfold base_days_of. rewrite Ha, Hs, Hc. reflexivity.
Qed.

Lemma C10_vital_signs_do_not_interfere_witness :
  predict_stay_length (mkPatientData 70 "high" 3 "98.6" "120/80" "95")
                      (constant_rng 2)
  = predict_stay_length (mkPatientData 70 "high" 3 "104.2" "90/60" "81")
                        (constant_rng 2).
Proof.
  apply C10_vital_signs_do_not_interfere; reflexivity.
Defined.

(** ** Sampling without replacement *)

Section sampling.
Context {A : Type}.
Implicit Types (pool r : list A) (draws : list nat).

Lemma pool_pick_Some pool j :
  (j < length pool)%nat ->
  exists x pool',
    pool_pick pool j = Some (x, pool') /\ pool !! j = Some x /\
    pool ≡ₚ x :: pool'.
Proof.
  intros Hj.
  destruct (lookup_lt_is_Some_2 pool j Hj) as [x Hx].
  destruct (last pool) as [y|] eqn:Hlast; cycle 1.
  { apply last_None in Hlast. subst pool. simpl in Hj. lia. }
  apply last_Some in Hlast as [l ->].
  unfold pool_pick. rewrite Hx, last_snoc.
  rewrite length_app in Hj |- *. simpl in Hj |- *.
  replace (length l + 1 - 1)%nat with (length l) by lia.
  eexists _, _. split; [reflexivity|]. split; [reflexivity|].
  destruct (decide (j < length l)%nat) as [Hlt|Hge].
  - rewrite lookup_app_l in Hx by done.
    rewrite insert_app_l by done.
    rewrite take_app_length' by (by rewrite length_insert).
    rewrite insert_take_drop by done.
    rewrite <-(take_drop_middle l j x Hx) at 1.
    rewrite <-app_assoc. simpl. rewrite <-!Permutation_middle.
    by rewrite !app_nil_r.
  - assert (j = length l) as -> by lia.
    rewrite list_lookup_middle in Hx by done. simplify_eq.
    rewrite list_insert_id by (by rewrite list_lookup_middle).
    rewrite take_app_length. by rewrite Permutation_app_comm.
Qed.

Lemma pool_pick_None pool j :
  (length pool <= j)%nat -> pool_pick pool j = None.
Proof.
  intros Hj. unfold pool_pick. by rewrite lookup_ge_None_2.
Qed.

Lemma draws_in_range_length n draws :
  draws_in_range n draws -> (length draws <= n)%nat.
Proof.
  revert n. induction draws as [|j draws IH]; intros n; simpl; [lia|].
  intros [Hj Hrest]. apply IH in Hrest. lia.
Qed.

(** In-range draws never index out of the pool, and the sample together
    with what is left of the pool is the pool again. *)
Lemma sample_pool_ok pool draws :
  draws_in_range (length pool) draws ->
  exists r rest,
    sample_pool pool draws = Ok r /\ length r = length draws /\
    pool ≡ₚ r ++ rest.
Proof.
  revert pool. induction draws as [|j draws IH]; intros pool; simpl.
  - intros _. exists [], pool. done.
  - intros [Hj Hrest].
    destruct (pool_pick_Some pool j Hj) as (x & pool' & -> & _ & Hperm).
    assert (length pool' = (length pool - 1)%nat) as Hlen.
    { rewrite Hperm. simpl. lia. }
    rewrite <-Hlen in Hrest.
    destruct (IH pool' Hrest) as (r & rest & -> & Hr & Hperm').
    exists (x :: r), rest. simpl. split; [done|]. split; [by rewrite Hr|].
    by rewrite Hperm, Hperm'.
Qed.

Lemma sample_pool_length pool draws r :
  sample_pool pool draws = Ok r -> length r = length draws.
Proof.
  revert pool r. induction draws as [|j draws IH]; intros pool r; simpl.
  - by intros [= <-].
  - destruct (pool_pick pool j) as [[x pool']|]; [|done].
    destruct (sample_pool pool' draws) as [r'|] eqn:Hr'; [|done].
    intros [= <-]. simpl. by rewrite (IH _ _ Hr').
Qed.

End sampling.

Lemma rng_draws_S (n k : nat) (g : Rng) :
  rng_draws n (S k) g =
  (fst (randbelow n g) :: fst (rng_draws (n - 1) k (snd (randbelow n g))),
   snd (rng_draws (n - 1) k (snd (randbelow n g)))).
Proof.
  unfold randbelow, rng_next. simpl.
  by destruct (rng_draws (n - 1) k (mkRng (raw g) (S (pos g)))).
Qed.

Lemma rng_draws_length (n k : nat) (g : Rng) :
  length (fst (rng_draws n k g)) = k.
Proof.
  revert n g. induction k as [|k IH]; intros n g; [done|].
  rewrite rng_draws_S. cbn [fst length]. by rewrite IH.
Qed.

Lemma rng_draws_in_range (n k : nat) (g : Rng) :
  (k <= n)%nat -> draws_in_range n (fst (rng_draws n k g)).
Proof.
  revert n g. induction k as [|k IH]; intros n g Hk; [done|].
  rewrite rng_draws_S. cbn [fst draws_in_range]. split.
  - apply randbelow_lt. lia.
  - apply IH. lia.
Qed.

Lemma rng_draws_snd (n k : nat) (g : Rng) :
  snd (rng_draws n k g) = mkRng (raw g) (pos g + k).
Proof.
  revert n g. induction k as [|k IH]; intros n g.
  - destruct g. cbn. by rewrite Nat.add_0_r.
  - rewrite rng_draws_S. cbn [snd]. rewrite IH.
    unfold randbelow, rng_next. cbn. f_equal. lia.
Qed.

(** ** Drawing until the index is new *)

Lemma draw_fresh_unfold (fuel n : nat) (selected : list nat) (g : Rng) :
  draw_fresh fuel n selected g =
  if bool_decide (fst (randbelow n g) ∈ selected) then
    match fuel with
    | O => None
    | S fuel' => draw_fresh fuel' n selected (snd (randbelow n g))
    end
  else Some (fst (randbelow n g), snd (randbelow n g)).
Proof. by destruct fuel. Qed.

Lemma randbelow_fst (n : nat) (g : Rng) :
  fst (randbelow n g) = Z.to_nat (raw_at g (pos g) mod Z.of_nat n).
Proof. reflexivity. Qed.

Lemma randbelow_snd (n : nat) (g : Rng) :
  snd (randbelow n g) = mkRng (raw g) (S (pos g)).
Proof. reflexivity. Qed.

(** If the loop gives up, every draw it saw was taken already. *)
Lemma draw_fresh_None (fuel n : nat) (selected : list nat) (g : Rng) :
  draw_fresh fuel n selected g = None ->
  forall i, (pos g <= i <= pos g + fuel)%nat ->
            Z.to_nat (raw_at g i mod Z.of_nat n) ∈ selected.
Proof.
  revert g. induction fuel as [|fuel IH]; intros g Hnone i Hi;
    rewrite draw_fresh_unfold in Hnone;
    destruct (bool_decide (fst (randbelow n g) ∈ selected)) eqn:Hin;
    try done; apply bool_decide_eq_true in Hin; rewrite randbelow_fst in Hin.
  - by replace i with (pos g) by lia.
  - destruct (decide (i = pos g)) as [->|Hne]; [done|].
    rewrite randbelow_snd in Hnone.
    apply (IH _ Hnone i). cbn [pos]. lia.
Qed.

Lemma draw_fresh_Some (fuel n : nat) (selected : list nat) (g g' : Rng)
    (j : nat) :
  (0 < n)%nat ->
  draw_fresh fuel n selected g = Some (j, g') ->
  (j < n)%nat /\ (j ∉ selected) /\ raw g' = raw g /\ (pos g < pos g')%nat.
Proof.
  intros Hn. revert g. induction fuel as [|fuel IH]; intros g Hsome;
    rewrite draw_fresh_unfold in Hsome;
    destruct (bool_decide (fst (randbelow n g) ∈ selected)) eqn:Hin;
    try done.
  - apply bool_decide_eq_false in Hin. injection Hsome as <- <-.
    split; [by apply randbelow_lt|]. split; [done|].
    cbn. split; [done|lia].
  - apply IH in Hsome as (? & ? & Hraw & Hpos).
    rewrite randbelow_snd in Hraw, Hpos. cbn in Hraw, Hpos.
    repeat split; try done. lia.
  - apply bool_decide_eq_false in Hin. injection Hsome as <- <-.
    split; [by apply randbelow_lt|]. split; [done|].
    cbn. split; [done|lia].
Qed.

(** Among [n] numbers in a row each remainder modulo [n] comes up. *)
Lemma counting_hits (n t base : nat) :
  (t < n)%nat ->
  exists i, (base <= i < base + n)%nat /\ (i mod n)%nat = t.
Proof.
  intros Ht.
  pose proof (Nat.div_mod_eq base n) as Hbase.
  pose proof (Nat.mod_upper_bound base n ltac:(lia)) as Hr.
  destruct (decide (base mod n <= t)%nat) as [Hle|Hgt].
  - exists (base + (t - base mod n))%nat. split; [lia|].
    symmetry. apply (Nat.mod_unique _ _ (base / n)); lia.
  - exists (base + (n + t - base mod n))%nat. split; [lia|].
    symmetry. apply (Nat.mod_unique _ _ (S (base / n))); lia.
Qed.

(** With an index still free the loop ends within [redraw_bound] draws. *)
Lemma draw_fresh_total (n t : nat) (selected : list nat) (g : Rng) :
  (t < n)%nat -> t ∉ selected ->
  exists j g', draw_fresh (redraw_bound n g) n selected g = Some (j, g').
Proof.
  intros Ht Hfree.
  destruct (draw_fresh (redraw_bound n g) n selected g) as [[j g']|] eqn:Hdraw;
    [by eexists _, _|].
  destruct (counting_hits n t (Nat.max (pos g) (length (raw g))) Ht)
    as (i & Hi & Hmod).
  pose proof (draw_fresh_None _ _ _ _ Hdraw i) as Hin.
  unfold redraw_bound in Hin.
  assert (raw_at g i = Z.of_nat i) as Hraw.
  { unfold raw_at. rewrite lookup_ge_None_2; [done|lia]. }
  rewrite Hraw, <-Nat2Z.inj_mod, Nat2Z.id, Hmod in Hin.
  destruct Hfree. apply Hin. lia.
Qed.

Lemma free_index (n : nat) (selected : list nat) :
  NoDup selected ->
  (length selected < n)%nat ->
  exists t, (t < n)%nat /\ (t ∉ selected).
Proof.
  intros Hnd Hlen.
  destruct (decide (Forall (fun t => t ∈ selected) (seq 0 n))) as [Hall|Hnot].
  - assert (seq 0 n ⊆+ selected) as Hsub.
    { apply NoDup_submseteq; [apply NoDup_seq|].
      by apply Forall_forall. }
    apply submseteq_length in Hsub. rewrite length_seq in Hsub. lia.
  - apply not_Forall_Exists in Hnot; [|apply _].
    apply Exists_exists in Hnot as (t & Ht & Hfree).
    apply elem_of_seq in Ht. exists t. split; [lia|done].
Qed.

(** ** Selection through the set of selected indices *)

Lemma rows_of_distinct_indices {A} (population rows : list A) (js : list nat) :
  Forall2 (fun x j => population !! j = Some x) rows js ->
  rows ⊆ population /\ (NoDup js -> NoDup population -> NoDup rows).
Proof.
  induction 1 as [|x j rows js Hx Hrows [IHsub IHnd]].
  - split; [by intros ? ?%elem_of_nil|constructor].
  - split.
    + intros y [->|Hy]%elem_of_cons; [by eapply list_elem_of_lookup_2|].
      by apply IHsub.
    + intros [Hj Hjs]%NoDup_cons Hpop. apply NoDup_cons. split; [|by apply IHnd].
      intros Hin. destruct Hj.
      clear IHsub IHnd. induction Hrows as [|x' j' rows js Hx' _ IH].
      * by apply elem_of_nil in Hin.
      * apply elem_of_cons in Hin as [->|Hin].
        -- rewrite (NoDup_lookup _ _ _ _ Hpop Hx Hx'). by left.
        -- right. apply IH; [|done]. by apply NoDup_cons in Hjs as [_ ?].
Qed.

Lemma sample_set_spec {A} (population : list A) (k : nat)
    (selected : list nat) (g : Rng) :
  NoDup selected ->
  (length selected + k <= length population)%nat ->
  exists rows js g',
    sample_set population (length population) k selected g = Ok (rows, g') /\
    Forall2 (fun x j => population !! j = Some x) rows js /\
    NoDup (js ++ selected) /\
    length rows = k /\
    raw g' = raw g /\ (pos g + k <= pos g')%nat.
Proof.
  revert selected g. induction k as [|k IH]; intros selected g Hnd Hlen.
  - exists [], [], g. cbn. repeat split; try done. lia.
  - destruct (free_index (length population) selected Hnd ltac:(lia))
      as (t & Ht & Hfree).
    destruct (draw_fresh_total _ t selected g Ht Hfree) as (j & g1 & Hdraw).
    pose proof (draw_fresh_Some _ (length population) _ _ _ _ ltac:(lia) Hdraw)
      as (Hj & Hjfree & Hraw1 & Hpos1).
    destruct (lookup_lt_is_Some_2 population j Hj) as [x Hx].
    destruct (IH (j :: selected) g1) as (rows & js & g2 & Hs & Hrows & Hnd' &
                                          Hlen' & Hraw2 & Hpos2).
    { by apply NoDup_cons. }
    { cbn [length]. lia. }
    exists (x :: rows), (j :: js), g2.
    cbn [sample_set]. rewrite Hdraw, Hx, Hs. cbn.
    split; [done|]. split; [by constructor|].
    split; [by rewrite <-Permutation_middle in Hnd'|].
    split; [by rewrite Hlen'|]. split; [congruence|lia].
Qed.

(** ** [random.sample], either way *)

Lemma random_sample_spec {A} (population : list A) (k : nat) (g : Rng) :
  (k <= length population)%nat ->
  exists rows g',
    random_sample population k g = Ok (rows, g') /\
    length rows = k /\
    rows ⊆ population /\
    (NoDup population -> NoDup rows) /\
    (k = length population -> (length population <= setsize k)%nat ->
     rows ≡ₚ population) /\
    raw g' = raw g /\
    (pos g + k <= pos g')%nat /\
    ((length population <= setsize k)%nat -> pos g' = (pos g + k)%nat).
Proof.
  intros Hk. unfold random_sample. cbv zeta.
  rewrite (proj2 (Nat.leb_le _ _) Hk).
  destruct (length population <=? setsize k)%nat eqn:Hsmall.
  - pose proof (rng_draws_in_range (length population) k g Hk) as Hrange.
    pose proof (rng_draws_length (length population) k g) as Hlen.
    pose proof (rng_draws_snd (length population) k g) as Hsnd.
    destruct (rng_draws (length population) k g) as [draws g'].
    cbn [fst snd] in *.
    destruct (sample_pool_ok population draws Hrange)
      as (rows & rest & Hrows & Hrlen & Hperm).
    exists rows, g'. rewrite Hrows. cbn. subst g'. cbn [raw pos].
    split; [done|]. split; [lia|]. split.
    { intros x Hx. rewrite Hperm. apply elem_of_app. by left. }
    split.
    { intros Hnd. rewrite Hperm in Hnd. by apply NoDup_app in Hnd as [? _]. }
    split.
    { intros Hall _. pose proof (Permutation_length Hperm) as Hpl.
      rewrite length_app in Hpl.
      assert (length rest = 0%nat) as ->%nil_length_inv by lia.
      by rewrite Hperm, app_nil_r. }
    split; [done|]. split; [lia|done].
  - apply Nat.leb_gt in Hsmall.
    destruct (sample_set_spec population k [] g) as
      (rows & js & g' & Hs & Hrows & Hnd & Hlen & Hraw & Hpos).
    { constructor. }
    { cbn. lia. }
    exists rows, g'. rewrite Hs. rewrite app_nil_r in Hnd.
    destruct (rows_of_distinct_indices population rows js Hrows)
      as [Hsub Hdistinct].
    split; [done|]. split; [done|]. split; [done|].
    split; [by intros ?; apply Hdistinct|].
    split; [intros; lia|]. split; [done|]. split; [done|intros; lia].
Qed.

(** ** Precaution selection *)

Lemma setsize_small (k : nat) : (k <= 5)%nat -> setsize k = 21%nat.
Proof. intros Hk. unfold setsize. by rewrite (proj2 (Nat.leb_le _ _) Hk). Qed.

Lemma select_precautions_spec (s : Store) (g : Rng) :
  exists selected g',
    select_precautions s g = Ok (selected, g') /\
    length selected = Nat.min 5 (length (precautions s)) /\
    selected ⊆ precautions s /\
    (NoDup (precautions s) -> NoDup selected) /\
    ((length (precautions s) < 5)%nat -> selected ≡ₚ precautions s) /\
    raw g' = raw g /\
    (pos g + Nat.min 5 (length (precautions s)) <= pos g')%nat /\
    ((length (precautions s) <= 21)%nat ->
     pos g' = (pos g + Nat.min 5 (length (precautions s)))%nat).
Proof.
  unfold select_precautions. cbv zeta.
  destruct (random_sample_spec (precautions s)
              (Nat.min 5 (length (precautions s))) g ltac:(lia))
    as (rows & g' & Hs & Hlen & Hsub & Hnd & Hall & Hraw & Hpos & Hexact).
  rewrite setsize_small in Hall, Hexact by lia.
  exists rows, g'. repeat split; try done.
  intros Hfew. apply Hall; lia.
Qed.

Lemma primary_key_NoDup (rows : list Precaution.t) :
  NoDup (map Precaution.id rows) -> NoDup rows.
Proof. apply NoDup_fmap_1. Qed.

(** ** The record store *)

Lemma account_exists_iff (u : Z) (us : list User.t) :
  existsb (fun x => User.id x =? u) us = true <-> u ∈ map User.id us.
Proof.
  rewrite existsb_exists, list_elem_of_fmap. split.
  - intros (x & Hx%list_elem_of_In & Heq%Z.eqb_eq). eauto.
  - intros (x & -> & Hx%list_elem_of_In). exists x. by rewrite Z.eqb_refl.
Qed.

Lemma account_missing_iff (u : Z) (us : list User.t) :
  existsb (fun x => User.id x =? u) us = false <-> u ∉ map User.id us.
Proof.
  rewrite <-account_exists_iff. destruct (existsb _ us); split; done.
Qed.

(** The row that [output] hands to the store for an intake. *)
Lemma add_prediction_ok (now : Z) (s : Store) (row : Z -> Z -> Prediction.t) :
  Prediction.user_id (row (next_rowid (map Prediction.id (predictions s))) now)
    ∈ map User.id (users s) ->
  add_prediction now s row =
  Ok (mkStore (users s) (precautions s)
        (predictions s ++
           [row (next_rowid (map Prediction.id (predictions s))) now])).
Proof.
  intros H%account_exists_iff. unfold add_prediction. by rewrite H.
Qed.

Lemma add_prediction_rejected (now : Z) (s : Store) (row : Z -> Z -> Prediction.t) :
  Prediction.user_id (row (next_rowid (map Prediction.id (predictions s))) now)
    ∉ map User.id (users s) ->
  add_prediction now s row = Raise IntegrityError.
Proof.
  intros H%account_missing_iff. unfold add_prediction. by rewrite H.
Qed.

Lemma next_rowid_fresh (ids : list Z) (i : Z) :
  i ∈ ids -> i < next_rowid ids.
Proof.
  unfold next_rowid. induction ids as [|x ids IH]; simpl.
  - by intros ?%elem_of_nil.
  - intros [->|Hi]%elem_of_cons; [lia|]. specialize (IH Hi). lia.
Qed.

(** ** The result view, case by case *)

Lemma output_no_intake (u : Z) (w : World) :
  session w !! "detection_data" = None ->
  output u w = (Redirect "detection", w).
Proof. intros H. unfold output. by rewrite H. Qed.

Lemma output_account_missing (u : Z) (w : World) (patient_data : PatientData) :
  session w !! "detection_data" = Some patient_data ->
  u ∉ map User.id (users (db w)) ->
  output u w =
  (InternalServerError IntegrityError,
   set_np_random (snd (predict_stay_length patient_data (np_random w))) w).
Proof.
  intros Hs Hu. unfold output. rewrite Hs, predict_stay_length_unfold.
  cbv beta iota. world_simpl. rewrite add_prediction_rejected; done.
Qed.

Lemma output_render (u : Z) (w : World) (patient_data : PatientData) :
  session w !! "detection_data" = Some patient_data ->
  u ∈ map User.id (users (db w)) ->
  let predicted_days :=
    fst (predict_stay_length patient_data (np_random w)) in
  let row :=
    Prediction.mk (next_rowid (map Prediction.id (predictions (db w)))) u
      (age patient_data) (severity patient_data) (comorbidities patient_data)
      (temperature patient_data) (blood_pressure patient_data)
      (oxygen_saturation patient_data) predicted_days (clock w) in
  exists selected py',
    select_precautions (db w) (py_random w) = Ok (selected, py') /\
    output u w =
    (RenderOutput predicted_days selected
       (fst (make_suggestions (generator w) (generator_calls w)))
       patient_data,
     mkWorld
       (mkStore (users (db w)) (precautions (db w))
                (predictions (db w) ++ [row]))
       (session w) (clock w)
       (snd (predict_stay_length patient_data (np_random w)))
       py'
       (generator w)
       (snd (make_suggestions (generator w) (generator_calls w)))).
Proof.
  intros Hs Hu. cbv zeta.
  unfold output. rewrite Hs, !predict_stay_length_unfold.
  cbv beta iota. world_simpl. rewrite add_prediction_ok by done.
  cbv beta iota. world_simpl.
  destruct (select_precautions_spec (db w) (py_random w))
    as (selected & py' & Hsel & _).
  exists selected, py'. split; [exact Hsel|].
  unfold select_precautions in Hsel |- *. cbn [precautions] in Hsel |- *.
  rewrite Hsel. cbv beta iota. world_simpl.
  destruct (make_suggestions (generator w) (generator_calls w)); reflexivity.
Qed.

(** What a request for the result view does to the store: nothing, or one
    appended row built from the session intake. *)
Lemma output_db (u : Z) (w : World) :
  db (snd (output u w)) = db w \/
  exists patient_data,
    session w !! "detection_data" = Some patient_data /\
    u ∈ map User.id (users (db w)) /\
    db (snd (output u w)) =
    mkStore (users (db w)) (precautions (db w))
      (predictions (db w) ++
         [Prediction.mk (next_rowid (map Prediction.id (predictions (db w)))) u
            (age patient_data) (severity patient_data)
            (comorbidities patient_data) (temperature patient_data)
            (blood_pressure patient_data) (oxygen_saturation patient_data)
            (fst (predict_stay_length patient_data (np_random w)))
            (clock w)]).
Proof.
  destruct (session w !! "detection_data") as [patient_data|] eqn:Hs.
  - destruct (decide (u ∈ map User.id (users (db w)))) as [Hu|Hu].
    + right. exists patient_data.
      destruct (output_render u w patient_data Hs Hu) as (sel & py' & _ & ->).
      done.
    + left. by rewrite (output_account_missing u w patient_data Hs Hu).
  - left. by rewrite output_no_intake.
Qed.

Lemma output_session (u : Z) (w : World) :
  session (snd (output u w)) = session w.
Proof.
  destruct (session w !! "detection_data") as [patient_data|] eqn:Hs.
  - destruct (decide (u ∈ map User.id (users (db w)))) as [Hu|Hu].
    + destruct (output_render u w patient_data Hs Hu) as (sel & py' & _ & ->).
      done.
    + by rewrite (output_account_missing u w patient_data Hs Hu).
  - by rewrite output_no_intake.
Qed.

(** C6: a request for the result view whose session holds no intake is
    answered with a redirect to the intake form and changes nothing: no draw
    is taken from the estimator's random source, no row is stored and no
    exception is raised. *)
Theorem C6_missing_intake_redirects (u : Z) (w : World) :
  session w !! "detection_data" = None ->
  output u w = (Redirect "detection", w).
Proof.
  intros Habsent. unfold output.
  destruct (session w !! "detection_data") as [patient_data|] eqn:Hlookup.
  - discriminate Habsent.
  - reflexivity.
Qed.

Lemma C6_missing_intake_redirects_witness :
  output 1 fresh_world = (Redirect "detection", fresh_world).
Proof.
  apply C6_missing_intake_redirects. reflexivity.
Defined.

(** C4: when the account id of a run references no account, the store
    rejects the row with an integrity error, the view answers with that error
    instead of a result, and the store is left exactly as it was. *)
Theorem C4_unknown_account_rejected
    (u : Z) (w : World) (patient_data : PatientData) :
  session w !! "detection_data" = Some patient_data ->
  u ∉ map User.id (users (db w)) ->
  fst (output u w) = InternalServerError IntegrityError /\
  db (snd (output u w)) = db w.
Proof.
  intros Hs Hu. by rewrite (output_account_missing u w patient_data Hs Hu).
Qed.

Lemma C4_unknown_account_rejected_witness :
  fst (output 7 intake_world) = InternalServerError IntegrityError /\
  db (snd (output 7 intake_world)) = db intake_world.
Proof.
  apply (C4_unknown_account_rejected 7 intake_world sample_intake).
  - reflexivity.
  - vm_compute. intros H. apply list_elem_of_In in H. simpl in H.
    destruct H as [H|[]]. discriminate H.
Defined.

(** C9: the result view never writes to the session.  After a run that
    rendered a result the intake is still stored under the same key, so the
    same request, repeated at once, renders a result for the identical
    intake instead of redirecting. *)
Theorem C9_session_left_in_place (u : Z) (w : World) :
  session (snd (output u w)) = session w /\
  forall d precs sugg patient_data,
    fst (output u w) = RenderOutput d precs sugg patient_data ->
    session (snd (output u w)) !! "detection_data" = Some patient_data /\
    exists d' precs' sugg',
      fst (output u (snd (output u w)))
        = RenderOutput d' precs' sugg' patient_data.
Proof.
  split; [apply output_session|].
  intros d precs sugg patient_data Hout.
  destruct (session w !! "detection_data") as [pd|] eqn:Hs; cycle 1.
  { by rewrite output_no_intake in Hout. }
  destruct (decide (u ∈ map User.id (users (db w)))) as [Hu|Hu]; cycle 1.
  { by rewrite (output_account_missing u w pd Hs Hu) in Hout. }
  destruct (output_render u w pd Hs Hu) as (sel & py' & _ & Hw).
  rewrite Hw in Hout. simpl in Hout. injection Hout as <- <- <- <-.
  assert (session (snd (output u w)) !! "detection_data" = Some pd) as Hs'
    by (by rewrite output_session).
  split; [exact Hs'|].
  assert (u ∈ map User.id (users (db (snd (output u w))))) as Hu'
    by (by rewrite Hw).
  destruct (output_render u _ pd Hs' Hu') as (sel' & py'' & _ & ->).
  by eexists _, _, _.
Qed.

Lemma C9_session_left_in_place_witness :
  session (snd (output 1 intake_world)) !! "detection_data"
    = Some sample_intake /\
  exists d' precs' sugg',
    fst (output 1 (snd (output 1 intake_world)))
      = RenderOutput d' precs' sugg' sample_intake.
Proof.
  destruct (C9_session_left_in_place 1 intake_world) as [_ H].
  eapply H. vm_compute. reflexivity.
Defined.

(** Behind [login_required] the result view never meets an unknown account:
    the account it runs for was just read from the store. *)
Lemma login_required_output_account_known (logged_in : option Z) (w : World) :
  fst (login_required output logged_in w) <> InternalServerError IntegrityError.
Proof.
  unfold login_required. destruct logged_in as [user_id|]; [|done].
  unfold load_user.
  destruct (List.find _ (users (db w))) as [current_user|] eqn:Hfind; [|done].
  apply find_some in Hfind as [Hin _].
  assert (User.id current_user ∈ map User.id (users (db w))) as Hu.
  { apply list_elem_of_fmap. exists current_user.
    split; [done|]. by apply list_elem_of_In. }
  destruct (session w !! "detection_data") as [pd|] eqn:Hs.
  - by destruct (output_render _ w pd Hs Hu) as (sel & py' & _ & ->).
  - by rewrite output_no_intake.
Qed.

(** ** Suggestions *)

Lemma make_suggestions_unavailable (calls : nat) :
  make_suggestions None calls = (fallback_suggestions, calls).
Proof. reflexivity. Qed.

Lemma make_suggestions_raises (g : Generator) (calls : nat) (e : Exception) :
  g calls prompt 5%nat 60%nat = Raise e ->
  make_suggestions (Some g) calls = (fallback_suggestions, S calls).
Proof.
  intros H. unfold make_suggestions, try_generate. by rewrite H.
Qed.

(** C3: when the text generator could not be constructed at start-up, or the
    call to it raises, whatever the error, the suggestions of the run are the
    five fixed fallback strings in their fixed order, and the view still
    renders its result: the failure does not leave the workflow. *)
Theorem C3_fallback_suggestions
    (u : Z) (w : World) (patient_data : PatientData) :
  (exists e, generator w = load_generator (Raise e)) \/
  (exists g e, generator w = Some g /\
               g (generator_calls w) prompt 5%nat 60%nat = Raise e) ->
  session w !! "detection_data" = Some patient_data ->
  u ∈ map User.id (users (db w)) ->
  fst (make_suggestions (generator w) (generator_calls w)) =
    [ "Stay hydrated and follow your treatment plan.";
      "Communicate openly with your healthcare team.";
      "Get adequate rest to support your recovery.";
      "Follow all medication instructions precisely.";
      "Report any new symptoms to your nurse immediately." ] /\
  exists d precs,
    fst (output u w) =
    RenderOutput d precs
      [ "Stay hydrated and follow your treatment plan.";
        "Communicate openly with your healthcare team.";
        "Get adequate rest to support your recovery.";
        "Follow all medication instructions precisely.";
        "Report any new symptoms to your nurse immediately." ]
      patient_data.
Proof.
  intros Hgen Hs Hu.
  assert (fst (make_suggestions (generator w) (generator_calls w))
            = fallback_suggestions) as Hfb.
  { destruct Hgen as [[e ->]|(g & e & -> & Hraise)].
    - reflexivity.
    - by rewrite (make_suggestions_raises g _ e Hraise). }
  split; [exact Hfb|].
  destruct (output_render u w patient_data Hs Hu) as (sel & py' & _ & ->).
  cbn [fst]. rewrite Hfb. by eexists _, _.
Qed.

Lemma C3_fallback_suggestions_witness :
  exists d precs,
    fst (output 1 intake_world) =
    RenderOutput d precs
      [ "Stay hydrated and follow your treatment plan.";
        "Communicate openly with your healthcare team.";
        "Get adequate rest to support your recovery.";
        "Follow all medication instructions precisely.";
        "Report any new symptoms to your nurse immediately." ]
      sample_intake.
Proof.
  apply (C3_fallback_suggestions 1 intake_world sample_intake).
  - left. exists (OtherError "OSError"). reflexivity.
  - reflexivity.
  - vm_compute. apply list_elem_of_In. simpl. left. reflexivity.
Defined.

(** ** Stored predictions *)

Lemma output_days_positive (u : Z) (w : World) :
  days_positive (db w) -> days_positive (db (snd (output u w))).
Proof.
  intros Hinv.
  destruct (output_db u w) as [->|(pd & _ & _ & ->)]; [done|].
  unfold days_positive in *. cbn [predictions].
  apply Forall_app. split; [done|].
  apply Forall_singleton. cbn [Prediction.predicted_days].
  apply predict_stay_length_ge_1.
Qed.

Lemma step_days_positive (e : Event) (w : World) :
  days_positive (db w) -> days_positive (db (step e w)).
Proof.
  destruct e as [[data|]|u|u|d]; cbn [step]; try done.
  apply output_days_positive.
Qed.

Lemma run_days_positive (es : list Event) (w : World) :
  days_positive (db w) -> days_positive (db (run es w)).
Proof.
  revert w. induction es as [|e es IH]; intros w Hinv; [done|].
  cbn. apply IH. by apply step_days_positive.
Qed.

(** C2: the estimator returns an integer that is at least 1 for every intake
    and every draw, hence every row the result view stores predicts at least
    one day: if that holds of the stored rows, it still holds after any
    sequence of requests, in particular from a store without predictions. *)
Theorem C2_predicted_days_at_least_one
    (patient_data : PatientData) (g : Rng) (es : list Event) (w : World) :
  Forall (fun p => 1 <= Prediction.predicted_days p) (predictions (db w)) ->
  1 <= fst (predict_stay_length patient_data g) /\
  Forall (fun p => 1 <= Prediction.predicted_days p)
         (predictions (db (run es w))).
Proof.
  intros Hinv. split.
  - apply predict_stay_length_ge_1.
  - by apply run_days_positive.
Qed.

Lemma C2_predicted_days_at_least_one_witness :
  1 <= fst (predict_stay_length sample_intake (constant_rng 0)) /\
  Forall (fun p => 1 <= Prediction.predicted_days p)
         (predictions
            (db (run [Submit (Some sample_intake); ViewOutput 1; Elapse 5;
                      ViewOutput 1]
                     fresh_world))).
Proof.
  apply C2_predicted_days_at_least_one. vm_compute. constructor.
Defined.

(** ** Initialisation *)

Lemma init_db_seeded (s : Store) :
  precautions s <> [] -> init_db s = s.
Proof.
  intros H. unfold init_db. destruct (precautions s); done.
Qed.

Lemma init_db_idempotent (s : Store) : init_db (init_db s) = init_db s.
Proof.
  destruct s as [us [|p precs] ps]; [|done].
  reflexivity.
Qed.

(** C8: on a store without precautions [init_db] inserts the ten fixed
    strings, in order, and nothing else; on a store that holds a precaution it
    does nothing, so a second initialisation leaves exactly those ten. *)
Theorem C8_init_db_seeds_once
    (us : list User.t) (ps : list Prediction.t)
    (p : Precaution.t) (precs : list Precaution.t) (s : Store) :
  map Precaution.text (precautions (init_db (mkStore us [] ps))) =
    [ "Maintain proper hygiene to prevent hospital-acquired infections.";
      "Follow all prescribed medication schedules without missing doses.";
      "Engage in light physical activity as recommended by your healthcare provider.";
      "Ensure adequate hydration and nutrition during your hospital stay.";
      "Communicate openly with your care team about any concerns or symptoms.";
      "Get sufficient rest to support your body's healing process.";
      "Keep your environment clean and sanitized.";
      "Monitor your vital signs regularly as instructed.";
      "Report any new or worsening symptoms immediately.";
      "Follow discharge instructions carefully to prevent readmission." ] /\
  meets_contract seed_contract
    (map Precaution.text (precautions (init_db (mkStore us [] ps)))) = true /\
  length (precautions (init_db (mkStore us [] ps))) = 10%nat /\
  users (init_db (mkStore us [] ps)) = us /\
  predictions (init_db (mkStore us [] ps)) = ps /\
  init_db (mkStore us (p :: precs) ps) = mkStore us (p :: precs) ps /\
  init_db (init_db s) = init_db s /\
  precautions (init_db (init_db (mkStore us [] ps)))
    = precautions (init_db (mkStore us [] ps)).
Proof.
  repeat split; try reflexivity.
  - apply init_db_idempotent.
Qed.

(** ** Recent history *)

Lemma insert_desc_Permutation (p : Prediction.t) (l : list Prediction.t) :
  insert_desc p l ≡ₚ p :: l.
Proof.
  induction l as [|q l IH]; simpl; [done|].
  destruct (Prediction.timestamp p <? Prediction.timestamp q); [|done].
  rewrite IH. apply perm_swap.
Qed.

Lemma order_by_timestamp_desc_Permutation (l : list Prediction.t) :
  order_by_timestamp_desc l ≡ₚ l.
Proof.
  induction l as [|p l IH]; simpl; [done|].
  by rewrite insert_desc_Permutation, IH.
Qed.

Lemma insert_desc_sorted (p : Prediction.t) (l : list Prediction.t) :
  most_recent_first l -> most_recent_first (insert_desc p l).
Proof.
  unfold most_recent_first.
  induction l as [|q l IH]; simpl; intros Hl.
  - repeat constructor.
  - apply StronglySorted_cons in Hl as [Hq Hl].
    destruct (Prediction.timestamp p <? Prediction.timestamp q) eqn:Hpq.
    + apply Z.ltb_lt in Hpq. apply StronglySorted_cons. split; [|by apply IH].
      rewrite insert_desc_Permutation. constructor; [lia|done].
    + apply Z.ltb_ge in Hpq. apply StronglySorted_cons. split.
      * constructor; [done|].
        eapply Forall_impl; [exact Hq|]. simpl. intros; lia.
      * apply StronglySorted_cons. done.
Qed.

Lemma order_by_timestamp_desc_sorted (l : list Prediction.t) :
  most_recent_first (order_by_timestamp_desc l).
Proof.
  induction l as [|p l IH]; simpl.
  - constructor.
  - by apply insert_desc_sorted.
Qed.

Lemma most_recent_first_take (n : nat) (l : list Prediction.t) :
  most_recent_first l -> most_recent_first (take n l).
Proof.
  unfold most_recent_first. intros Hl.
  rewrite <-(take_drop n l) in Hl. by apply StronglySorted_app_1_l in Hl.
Qed.

Lemma recent_predictions_sorted (u : Z) (s : Store) :
  most_recent_first (recent_predictions u s).
Proof.
  apply most_recent_first_take, order_by_timestamp_desc_sorted.
Qed.

(** A row stamped before every row of a prefix is inserted behind it. *)
Lemma insert_desc_behind (p : Prediction.t) (front back : list Prediction.t) :
  Forall (fun q => Prediction.timestamp p < Prediction.timestamp q) front ->
  insert_desc p (front ++ back) = front ++ insert_desc p back.
Proof.
  induction 1 as [|q front Hq _ IH]; simpl; [done|].
  rewrite (proj2 (Z.ltb_lt _ _) Hq). by rewrite IH.
Qed.

Lemma order_by_timestamp_desc_app (olds news : list Prediction.t) :
  Forall (fun p => Forall (fun q =>
            Prediction.timestamp p < Prediction.timestamp q) news) olds ->
  order_by_timestamp_desc (olds ++ news) =
  order_by_timestamp_desc news ++ order_by_timestamp_desc olds.
Proof.
  induction 1 as [|p olds Hp _ IH]; simpl.
  - by rewrite app_nil_r.
  - rewrite IH. apply insert_desc_behind.
    by rewrite order_by_timestamp_desc_Permutation.
Qed.

(** The two rows that two runs append. *)
Lemma two_runs_rows (u : Z) (d : nat) (w : World) (patient_data : PatientData) :
  session w !! "detection_data" = Some patient_data ->
  u ∈ map User.id (users (db w)) ->
  exists r1 r2,
    predictions (db (two_runs u d w)) = predictions (db w) ++ [r1; r2] /\
    Prediction.user_id r1 = u /\ Prediction.user_id r2 = u /\
    Prediction.id r1 < Prediction.id r2 /\
    Prediction.timestamp r1 = clock w /\
    Prediction.timestamp r2 = clock w + Z.of_nat d /\
    (forall p, p ∈ predictions (db w) -> Prediction.id p < Prediction.id r1).
Proof.
  intros Hs Hu. unfold two_runs, run. cbn [foldl step].
  destruct (output_render u w patient_data Hs Hu) as (sel1 & py1 & _ & ->).
  cbn [snd].
  match goal with
  | |- context [output u ?w1] =>
      destruct (output_render u w1 patient_data Hs Hu) as (sel2 & py2 & _ & ->)
  end.
  world_simpl. eexists _, _. rewrite <-app_assoc. split; [reflexivity|].
  cbn [Prediction.user_id Prediction.id Prediction.timestamp].
  repeat split.
  - apply next_rowid_fresh. rewrite map_app. cbn [map Prediction.id].
    apply elem_of_app. right. constructor.
  - intros p Hp. apply next_rowid_fresh. by apply list_elem_of_fmap_2.
Qed.

Lemma foldr_insert_desc_Permutation (base l : list Prediction.t) :
  foldr insert_desc base l ≡ₚ l ++ base.
Proof.
  induction l as [|p l IH]; cbn [foldr]; [done|].
  by rewrite insert_desc_Permutation, IH.
Qed.

(** A row goes in before the rows that are stamped no later than it. *)
Lemma insert_desc_before (p : Prediction.t) (front back : list Prediction.t) :
  Forall (fun q => Prediction.timestamp q <= Prediction.timestamp p) back ->
  insert_desc p (front ++ back) = insert_desc p front ++ back.
Proof.
  intros Hback. induction front as [|q front IH]; cbn [app insert_desc].
  - destruct Hback as [|q back Hq _]; [done|].
    cbn [insert_desc]. by rewrite (proj2 (Z.ltb_ge _ _) Hq).
  - destruct (Prediction.timestamp p <? Prediction.timestamp q); [|done].
    by rewrite IH.
Qed.

(** Sorting keeps the rows stamped at [t] or later in front of the others. *)
Lemma foldr_insert_desc_split (t : Z) (base olds : list Prediction.t) :
  Forall (fun q => t <= Prediction.timestamp q) base ->
  foldr insert_desc base olds =
  foldr insert_desc base
        (filter (fun p => t <= Prediction.timestamp p) olds)
  ++ order_by_timestamp_desc
       (filter (fun p => Prediction.timestamp p < t) olds).
Proof.
  intros Hbase. induction olds as [|x olds IH].
  - cbn. by rewrite app_nil_r.
  - cbn [foldr]. rewrite IH.
    destruct (decide (t <= Prediction.timestamp x)) as [Hx|Hx].
    + rewrite (filter_cons_True _ x) by done.
      rewrite (filter_cons_False _ x) by lia. cbn [foldr].
      apply insert_desc_before.
      apply Forall_forall. intros q Hq.
      rewrite order_by_timestamp_desc_Permutation in Hq.
      apply list_elem_of_filter in Hq as [Hq _]. lia.
    + rewrite (filter_cons_False _ x) by done.
      rewrite (filter_cons_True _ x) by lia.
      unfold order_by_timestamp_desc at 2. cbn [foldr].
      fold (order_by_timestamp_desc
              (filter (fun p => Prediction.timestamp p < t) olds)).
      apply insert_desc_behind.
      apply Forall_forall. intros q Hq.
      rewrite foldr_insert_desc_Permutation in Hq.
      apply elem_of_app in Hq as [Hq|Hq].
      * apply list_elem_of_filter in Hq as [Hq _]. lia.
      * rewrite Forall_forall in Hbase. specialize (Hbase q Hq). lia.
Qed.

(** A row stamped no later than any row sorted in before it stays last. *)
Lemma foldr_insert_desc_last (z : Prediction.t) (base olds : list Prediction.t) :
  Forall (fun a => Prediction.timestamp z <= Prediction.timestamp a) olds ->
  foldr insert_desc (base ++ [z]) olds = foldr insert_desc base olds ++ [z].
Proof.
  induction 1 as [|a olds Ha _ IH]; cbn [foldr]; [done|].
  rewrite IH. apply insert_desc_before. by repeat constructor.
Qed.

(** The recent history after two new rows [y], [z] of the account, where
    [z] is stamped [t] and [y] no earlier and [z] is the later of the two in
    sorting order: the earlier rows stamped [t] or later come first together
    with [y], then [z], then the rest. *)
Lemma recent_after_two_rows (u t : Z) (olds : list Prediction.t)
    (y z : Prediction.t) :
  t <= Prediction.timestamp y ->
  Prediction.timestamp z = t ->
  exists front back,
    foldr insert_desc [y; z] olds = (front ++ [z]) ++ back /\
    front ≡ₚ filter (fun p => t <= Prediction.timestamp p) olds ++ [y].
Proof.
  intros Hy Hz.
  exists (foldr insert_desc [y]
            (filter (fun p => t <= Prediction.timestamp p) olds)),
         (order_by_timestamp_desc
            (filter (fun p => Prediction.timestamp p < t) olds)).
  split; [|apply foldr_insert_desc_Permutation].
  rewrite (foldr_insert_desc_split t) by (repeat constructor; lia).
  f_equal. apply (foldr_insert_desc_last z [y]).
  apply Forall_forall. intros a [Ha _]%list_elem_of_filter. lia.
Qed.

(** C7 (as amended): two runs of the workflow for the same account, the
    second no earlier than the first, add two distinct rows whose timestamps
    do not decrease; the recent history of the account has at most five rows
    in order of non-increasing timestamp, and it shows both new rows if and
    only if at most three earlier rows of the account are stamped at the
    time of the first run or later. *)
Theorem C7_two_runs_in_recent_history
    (u : Z) (d : nat) (w : World) (patient_data : PatientData) :
  session w !! "detection_data" = Some patient_data ->
  u ∈ map User.id (users (db w)) ->
  exists r1 r2,
    predictions (db (two_runs u d w)) = predictions (db w) ++ [r1; r2] /\
    Prediction.id r1 <> Prediction.id r2 /\
    Prediction.timestamp r1 <= Prediction.timestamp r2 /\
    (length (recent_predictions u (db (two_runs u d w))) <= 5)%nat /\
    most_recent_first (recent_predictions u (db (two_runs u d w))) /\
    (r1 ∈ recent_predictions u (db (two_runs u d w)) /\
     r2 ∈ recent_predictions u (db (two_runs u d w))
     <->
     (length (filter (fun p => (clock w <= Prediction.timestamp p)%Z)
                (filter (fun p => Prediction.user_id p = u)
                        (predictions (db w)))) <= 3)%nat).
Proof.
  intros Hs Hu.
  destruct (two_runs_rows u d w patient_data Hs Hu)
    as (r1 & r2 & Hrows & Hu1 & Hu2 & Hid & Ht1 & Ht2 & Hfresh).
  exists r1, r2. split; [exact Hrows|]. split; [lia|]. split; [lia|].
  split; [unfold recent_predictions; rewrite length_take; lia|].
  split; [apply recent_predictions_sorted|].
  unfold recent_predictions. rewrite Hrows, filter_app.
  rewrite (filter_cons_True _ r1) by done.
  rewrite (filter_cons_True _ r2) by done.
  rewrite filter_nil.
  set (olds := filter (fun p => Prediction.user_id p = u)
                      (predictions (db w))).
  set (late := filter (fun p => clock w <= Prediction.timestamp p) olds).
  assert (forall p, p ∈ late -> Prediction.id p < Prediction.id r1) as Hlate.
  { intros p [_ [_ Hp]%list_elem_of_filter]%list_elem_of_filter.
    by apply Hfresh. }
  unfold order_by_timestamp_desc. rewrite foldr_app.
  (* the two new rows, sorted: [y] first, [z] last *)
  assert (exists y z,
    foldr insert_desc [] [r1; r2] = [y; z] /\
    clock w <= Prediction.timestamp y /\ Prediction.timestamp z = clock w /\
    y <> z /\
    (r1 = y /\ r2 = z \/ r1 = z /\ r2 = y)) as (y & z & -> & Hy & Hz & Hyz & Hrs).
  { cbn [foldr insert_desc].
    assert (r1 <> r2) as Hne by (intros ->; lia).
    destruct (Prediction.timestamp r1 <? Prediction.timestamp r2) eqn:Hlt.
    - exists r2, r1. split; [done|]. split; [lia|]. split; [done|].
      split; [done|]. by right.
    - apply Z.ltb_ge in Hlt. exists r1, r2. split; [done|]. split; [lia|].
      split; [lia|]. split; [done|]. by left. }
  destruct (recent_after_two_rows u (clock w) olds y z Hy Hz)
    as (front & back & -> & Hfront).
  fold late in Hfront.
  assert (length front = S (length late)) as Hlen.
  { rewrite Hfront, length_app. cbn. lia. }
  assert (z ∉ front) as Hz_front.
  { rewrite Hfront. intros [Hin| ->%list_elem_of_singleton]%elem_of_app;
      [|done].
    specialize (Hlate z Hin). destruct Hrs as [[-> ->]|[-> ->]]; lia. }
  assert (y ∈ front) as Hy_front.
  { rewrite Hfront. apply elem_of_app. right. constructor. }
  split.
  - intros [Hr1 Hr2].
    destruct (decide (length late <= 3)%nat) as [|Hmany]; [done|].
    assert (z ∈ take 5 ((front ++ [z]) ++ back)) as Hin
      by (destruct Hrs as [[-> ->]|[-> ->]]; done).
    rewrite <-app_assoc, take_app_le in Hin by lia.
    apply elem_of_take in Hin as (i & Hi%list_elem_of_lookup_2 & _). done.
  - intros Hfew.
    assert (y ∈ take 5 ((front ++ [z]) ++ back) /\
            z ∈ take 5 ((front ++ [z]) ++ back)) as [Hyin Hzin].
    { rewrite take_app, (take_ge (front ++ [z])) by (rewrite length_app; cbn; lia).
      split; apply elem_of_app; left; apply elem_of_app;
        [by left|right; constructor]. }
    destruct Hrs as [[-> ->]|[-> ->]]; done.
Qed.

Lemma C7_two_runs_in_recent_history_witness :
  exists r1 r2,
    predictions (db (two_runs 1 3 intake_world))
      = predictions (db intake_world) ++ [r1; r2] /\
    Prediction.id r1 <> Prediction.id r2 /\
    Prediction.timestamp r1 <= Prediction.timestamp r2 /\
    (length (recent_predictions 1 (db (two_runs 1 3 intake_world))) <= 5)%nat /\
    most_recent_first (recent_predictions 1 (db (two_runs 1 3 intake_world))) /\
    (r1 ∈ recent_predictions 1 (db (two_runs 1 3 intake_world)) /\
     r2 ∈ recent_predictions 1 (db (two_runs 1 3 intake_world))
     <->
     (length (filter (fun p => (clock intake_world <= Prediction.timestamp p)%Z)
                (filter (fun p => Prediction.user_id p = 1%Z)
                        (predictions (db intake_world)))) <= 3)%nat).
Proof.
  apply (C7_two_runs_in_recent_history 1 3 intake_world sample_intake).
  - reflexivity.
  - vm_compute. apply list_elem_of_In. simpl. left. reflexivity.
Defined.

(** C7 as first stated, without the condition, fails: after five result
    views in one second, two further runs in that second add rows 6 and 7,
    and the recent history still shows rows 1 to 5. *)
Lemma C7_history_omits_runs :
  ~ history_shows_both_runs 1 0 busy_world.
Proof.
  intros (r1 & r2 & Hrows & _ & _ & Hin & _).
  vm_compute in Hrows.
  injection Hrows as <- _.
  vm_compute in Hin.
  apply list_elem_of_In in Hin. simpl in Hin.
  repeat (destruct Hin as [Hin|Hin]; [discriminate Hin|]).
  exact Hin.
Qed.

(** ** Primary keys of the precautions *)

Lemma add_precaution_primary_key (s : Store) (text : string) :
  NoDup (map Precaution.id (precautions s)) ->
  NoDup (map Precaution.id (precautions (add_precaution s text))).
Proof.
  intros Hnd. cbn [add_precaution precautions].
  rewrite map_app. cbn [map Precaution.id].
  apply NoDup_app. split; [done|]. split; [|apply NoDup_singleton].
  intros i Hi ->%list_elem_of_singleton.
  pose proof (next_rowid_fresh _ _ Hi). lia.
Qed.

Lemma seeding_primary_key (texts : list string) (s : Store) :
  NoDup (map Precaution.id (precautions s)) ->
  NoDup (map Precaution.id (precautions (foldl add_precaution s texts))).
Proof.
  revert s. induction texts as [|t texts IH]; intros s Hnd; [done|].
  cbn [foldl]. by apply IH, add_precaution_primary_key.
Qed.

Lemma init_db_primary_key (s : Store) :
  NoDup (map Precaution.id (precautions s)) ->
  NoDup (map Precaution.id (precautions (init_db s))).
Proof.
  intros Hnd. unfold init_db.
  destruct (length (precautions s) =? 0)%nat; [|done].
  by apply seeding_primary_key.
Qed.

Lemma step_precautions (e : Event) (w : World) :
  precautions (db (step e w)) = precautions (db w).
Proof.
  destruct e as [[data|]|u|u|d]; cbn [step]; try done.
  by destruct (output_db u w) as [->|(pd & _ & _ & ->)].
Qed.

(** The key of [precautions] stays a key from start-up on. *)
Lemma run_primary_key (es : list Event) (s : Store)
    (pipeline : result Generator) (now : Z) (np py : Rng) :
  NoDup (map Precaution.id (precautions s)) ->
  NoDup (map Precaution.id
             (precautions (db (run es (startup s pipeline now np py))))).
Proof.
  intros Hnd.
  assert (forall w, precautions (db (run es w)) = precautions (db w)) as ->.
  { induction es as [|e es IH]; intros w; [done|].
    cbn [run foldl]. fold (run es (step e w)).
    by rewrite IH, step_precautions. }
  by apply init_db_primary_key.
Qed.

(** ** Worked examples *)

Example select_precautions_short_store :
  select_precautions short_store (constant_rng 4) =
  Ok ([ Precaution.mk 2 "Drink water.";
        Precaution.mk 1 "Rest when you are tired.";
        Precaution.mk 3 "Walk every day." ],
      mkRng (replicate 1000 4) 3).
Proof. reflexivity. Qed.

(** On 22 elements the selection goes through the set of indices: the
    third draw repeats index 1 and is drawn again, so five elements cost six
    draws. *)
Example random_sample_redraws :
  random_sample (seqZ 1 22) 5 (mkRng [1; 2; 1; 11; 5; 21] 0)
  = Ok ([2; 3; 12; 6; 22], mkRng [1; 2; 1; 11; 5; 21] 6).
Proof. reflexivity. Qed.

(** On 21 elements it works on a copy, with one draw per element. *)
Example random_sample_pool :
  random_sample (seqZ 1 21) 5 (mkRng [1; 2; 1; 11; 5; 21] 0)
  = Ok ([2; 3; 21; 12; 6], mkRng [1; 2; 1; 11; 5; 21] 5).
Proof. reflexivity. Qed.

Example estimate_young_low_risk (g : Rng) :
  fst (np_random_randint (-1) 3 g) = -1 ->
  fst (predict_stay_length (mkPatientData 30 "low" 0 "98.6" "120/80" "97") g) = 2.
Proof. intros Hj. rewrite predict_stay_length_unfold, Hj. reflexivity. Qed.

Example fallback_when_generator_fails :
  exists d precs,
    fst (output 1 failing_generator_world) =
    RenderOutput d precs fallback_suggestions sample_intake.
Proof. by eexists _, _. Qed.

Example unknown_account_leaves_no_row :
  output 7 intake_world =
  (InternalServerError IntegrityError,
   set_np_random (mkRng (replicate 1000 1) 1) intake_world).
Proof. reflexivity. Qed.

Example recent_history_of_busy_account :
  map Prediction.id
      (recent_predictions 1 (db (two_runs 1 0 busy_world))) = [1; 2; 3; 4; 5]
  /\ map Prediction.id (predictions (db (two_runs 1 0 busy_world)))
     = [1; 2; 3; 4; 5; 6; 7].
Proof. split; reflexivity. Qed.

(** * Further properties *)

(** ** The estimator *)

(** X1: whatever the intake and the draw, the estimate lies between 2 and 12
    days, so the lower bound of 1 in [max] never decides the result: the
    estimate is the base plus the jitter. *)
Theorem X1_estimate_between_2_and_12 (patient_data : PatientData) (g : Rng) :
  2 <= fst (predict_stay_length patient_data g) <= 12 /\
  fst (predict_stay_length patient_data g) =
    base_days_of patient_data + fst (np_random_randint (-1) 3 g).
Proof.
  rewrite predict_stay_length_unfold. cbn [fst].
  pose proof (jitter_range g) as Hj.
  assert (3 <= base_days_of patient_data <= 10) as Hbase.
  { unfold base_days_of.
    destruct (65 <? age patient_data),
             (String.eqb (severity patient_data) "high"),
             (String.eqb (severity patient_data) "medium"),
             (2 <? comorbidities patient_data); lia. }
  lia.
Qed.

(** X2: with the same draw, an intake that is no younger, no less severe and
    has no fewer comorbidities never gets a shorter estimate. *)
Theorem X2_estimate_monotone (pd1 pd2 : PatientData) (g : Rng) :
  age pd1 <= age pd2 ->
  severity_rank (severity pd1) <= severity_rank (severity pd2) ->
  comorbidities pd1 <= comorbidities pd2 ->
  fst (predict_stay_length pd1 g) <= fst (predict_stay_length pd2 g).
Proof.
  intros Ha Hs Hc. rewrite !predict_stay_length_unfold. cbn [fst].
  apply Z.max_le_compat_l, Z.add_le_mono_r.
  unfold base_days_of, severity_rank in *.
  destruct (65 <? age pd1) eqn:Ha1, (65 <? age pd2) eqn:Ha2,
           (2 <? comorbidities pd1) eqn:Hc1, (2 <? comorbidities pd2) eqn:Hc2,
           (String.eqb (severity pd1) "high"),
           (String.eqb (severity pd1) "medium"),
           (String.eqb (severity pd2) "high"),
           (String.eqb (severity pd2) "medium");
    rewrite ?Z.ltb_lt, ?Z.ltb_ge in *; lia.
Qed.

Lemma X2_estimate_monotone_witness :
  fst (predict_stay_length (mkPatientData 40 "medium" 1 "98.6" "120/80" "97")
                           (constant_rng 3))
  <= fst (predict_stay_length sample_intake (constant_rng 3)).
Proof.
  apply X2_estimate_monotone; vm_compute; discriminate.
Defined.

(** X3: the severity is compared with ['high'] and ['medium'] exactly; any
    other string, such as one in another letter case, scores as ['low']. *)
Theorem X3_unknown_severity_scores_as_low (patient_data : PatientData) (g : Rng) :
  severity patient_data <> "high" ->
  severity patient_data <> "medium" ->
  predict_stay_length patient_data g =
  predict_stay_length
    (mkPatientData (age patient_data) "low" (comorbidities patient_data)
       (temperature patient_data) (blood_pressure patient_data)
       (oxygen_saturation patient_data)) g.
Proof.
  intros Hh%String.eqb_neq Hm%String.eqb_neq.
  rewrite !predict_stay_length_unfold. unfold base_days_of. cbn [age severity comorbidities].
  rewrite Hh, Hm. reflexivity.
Qed.

Lemma X3_unknown_severity_scores_as_low_witness :
  predict_stay_length (mkPatientData 70 "High" 3 "98.6" "120/80" "95")
                      (constant_rng 1)
  = predict_stay_length (mkPatientData 70 "low" 3 "98.6" "120/80" "95")
                        (constant_rng 1).
Proof.
  apply (X3_unknown_severity_scores_as_low
           (mkPatientData 70 "High" 3 "98.6" "120/80" "95"));
    discriminate.
Defined.

(** ** The intake form *)

Lemma severity_choice_inv (s : string) :
  existsb (String.eqb s) severity_choices = true ->
  exists c : Severity, s = severity_value c.
Proof.
  unfold severity_choices. cbn [existsb].
  destruct (String.eqb s "low") eqn:Hl.
  { apply String.eqb_eq in Hl. by exists low. }
  destruct (String.eqb s "medium") eqn:Hm.
  { apply String.eqb_eq in Hm. by exists medium. }
  destruct (String.eqb s "high") eqn:Hh; [|done].
  apply String.eqb_eq in Hh. by exists high.
Qed.

(** X4: an intake that passes [DetectionForm] has an age of 1 to 120, one of
    the three severities and 1 to 10 comorbidities: [DataRequired] turns the
    declared lower bound of 0 into 1. *)
Theorem X4_validated_intake_bounds (data : PatientData) :
  DetectionForm_validate data = true ->
  1 <= age data <= 120 /\
  (exists c : Severity, severity data = severity_value c) /\
  1 <= comorbidities data <= 10.
Proof.
  unfold DetectionForm_validate, data_required_int, number_range.
  rewrite !andb_true_iff, !negb_true_iff, !Z.leb_le, !Z.eqb_neq.
  intros Hvalid. destruct Hvalid as
    [[[[[[[[[[[_ [Ha1 Ha2]] Hsev] _] Hc0] [Hc1 Hc2]] _] _] _] _] _] _].
  split; [lia|]. split; [by apply severity_choice_inv|]. lia.
Qed.

Lemma X4_validated_intake_bounds_witness :
  1 <= age sample_intake <= 120 /\
  (exists c : Severity, severity sample_intake = severity_value c) /\
  1 <= comorbidities sample_intake <= 10.
Proof.
  apply X4_validated_intake_bounds. vm_compute. reflexivity.
Defined.

(** X5: a form that reports no comorbidities does not validate, whatever its
    other fields: the view shows the form again, and the session and the rest
    of the world stay as they were. *)
Theorem X5_zero_comorbidities_rejected (data : PatientData) (w : World) :
  comorbidities data = 0 ->
  submit_detection data w = (RenderDetection, w).
Proof.
  intros Hzero. unfold submit_detection.
  assert (DetectionForm_validate data = false) as ->; [|done].
  unfold DetectionForm_validate, data_required_int. rewrite Hzero.
  cbn [Z.eqb negb]. rewrite !andb_false_r. reflexivity.
Qed.

Lemma X5_zero_comorbidities_rejected_witness :
  submit_detection (mkPatientData 30 "low" 0 "98.6" "120/80" "97") fresh_world
  = (RenderDetection, fresh_world).
Proof.
  apply X5_zero_comorbidities_rejected. reflexivity.
Defined.

(** ** The result view and the store *)

Lemma intake_of_row (patient_data : PatientData) (i u days now : Z) :
  intake_of
    (Prediction.mk i u (age patient_data) (severity patient_data)
       (comorbidities patient_data) (temperature patient_data)
       (blood_pressure patient_data) (oxygen_saturation patient_data)
       days now) = patient_data.
Proof. by destruct patient_data. Qed.

Lemma submit_detection_valid (data : PatientData) (w : World) :
  DetectionForm_validate data = true ->
  submit_detection data w =
  (Redirect "output",
   set_session (<["detection_data" := data]> (session w)) w).
Proof. intros Hvalid. unfold submit_detection. by rewrite Hvalid. Qed.

(** X6: a validated intake form followed by the result view for a known
    account stores exactly one new row: it carries the six submitted fields
    unchanged, the account id, the rendered estimate, the store clock and a
    key no earlier row has; the page echoes the submitted intake. *)
Theorem X6_submitted_intake_is_stored
    (u : Z) (data : PatientData) (w : World) :
  DetectionForm_validate data = true ->
  u ∈ map User.id (users (db w)) ->
  exists days precs sugg row,
    fst (output u (snd (submit_detection data w)))
      = RenderOutput days precs sugg data /\
    predictions (db (snd (output u (snd (submit_detection data w)))))
      = predictions (db w) ++ [row] /\
    intake_of row = data /\
    Prediction.user_id row = u /\
    Prediction.predicted_days row = days /\
    Prediction.timestamp row = clock w /\
    Prediction.id row ∉ map Prediction.id (predictions (db w)).
Proof.
  intros Hvalid Hu. rewrite (submit_detection_valid data w Hvalid). cbn [snd].
  set (w1 := set_session _ w).
  assert (session w1 !! "detection_data" = Some data) as Hs
    by apply lookup_insert_eq.
  destruct (output_render u w1 data Hs Hu) as (sel & py' & _ & ->).
  eexists _, _, _, _. cbn [fst snd db predictions].
  split; [reflexivity|]. split; [reflexivity|].
  split; [apply intake_of_row|].
  cbn [Prediction.user_id Prediction.predicted_days Prediction.timestamp
       Prediction.id].
  repeat split.
  intros Hin%next_rowid_fresh. simpl in Hin. lia.
Qed.

Lemma X6_submitted_intake_is_stored_witness :
  exists days precs sugg row,
    fst (output 1 (snd (submit_detection sample_intake fresh_world)))
      = RenderOutput days precs sugg sample_intake /\
    predictions (db (snd (output 1 (snd (submit_detection sample_intake
                                                         fresh_world)))))
      = predictions (db fresh_world) ++ [row] /\
    intake_of row = sample_intake /\
    Prediction.user_id row = 1 /\
    Prediction.predicted_days row = days /\
    Prediction.timestamp row = clock fresh_world /\
    Prediction.id row ∉ map Prediction.id (predictions (db fresh_world)).
Proof.
  apply X6_submitted_intake_is_stored.
  - vm_compute. reflexivity.
  - vm_compute. apply list_elem_of_In. simpl. left. reflexivity.
Defined.

(** X7: whatever its outcome, the result view leaves the accounts, the
    precautions, the session, the store clock and the generator as they were,
    and it never removes or rewrites a stored prediction: the old table is a
    prefix of the new one, which has at most one row more. *)
Theorem X7_output_frame (u : Z) (w : World) :
  users (db (snd (output u w))) = users (db w) /\
  precautions (db (snd (output u w))) = precautions (db w) /\
  session (snd (output u w)) = session w /\
  clock (snd (output u w)) = clock w /\
  generator (snd (output u w)) = generator w /\
  predictions (db w) `prefix_of` predictions (db (snd (output u w))) /\
  (length (predictions (db (snd (output u w))))
     <= S (length (predictions (db w))))%nat.
Proof.
  destruct (session w !! "detection_data") as [pd|] eqn:Hs.
  - destruct (decide (u ∈ map User.id (users (db w)))) as [Hu|Hu].
    + destruct (output_render u w pd Hs Hu) as (sel & py' & _ & ->).
      cbn [snd db users precautions predictions session clock generator].
      repeat split; try done.
      * by apply prefix_app_r.
      * rewrite length_app. simpl. lia.
    + rewrite (output_account_missing u w pd Hs Hu).
      cbn [snd]. unfold set_np_random.
      cbn [db session clock generator]. repeat split; try done. lia.
  - rewrite output_no_intake by done. cbn [snd]. repeat split; try done. lia.
Qed.

(** X8: a run that renders a result takes exactly one draw from the
    estimator's source and calls the generator once if there is one, without
    retrying.  From the sampling source it takes at least [min 5 n] draws,
    [n] being the number of stored precautions, and exactly that many when
    [n] is at most 21; above that the library draws again whenever an index
    repeats. *)
Theorem X8_output_consumption
    (u : Z) (w : World) (days : Z) (precs : list Precaution.t)
    (sugg : list string) (patient_data : PatientData) :
  fst (output u w) = RenderOutput days precs sugg patient_data ->
  np_random (snd (output u w))
    = mkRng (raw (np_random w)) (S (pos (np_random w))) /\
  raw (py_random (snd (output u w))) = raw (py_random w) /\
  (pos (py_random w) + Nat.min 5 (length (precautions (db w)))
     <= pos (py_random (snd (output u w))))%nat /\
  ((length (precautions (db w)) <= 21)%nat ->
   pos (py_random (snd (output u w)))
     = (pos (py_random w) + Nat.min 5 (length (precautions (db w))))%nat) /\
  generator_calls (snd (output u w))
    = (generator_calls w
       + match generator w with Some _ => 1 | None => 0 end)%nat.
Proof.
  intros Hout.
  destruct (session w !! "detection_data") as [pd|] eqn:Hs; cycle 1.
  { by rewrite output_no_intake in Hout. }
  destruct (decide (u ∈ map User.id (users (db w)))) as [Hu|Hu]; cycle 1.
  { by rewrite (output_account_missing u w pd Hs Hu) in Hout. }
  destruct (output_render u w pd Hs Hu) as (sel & py' & Hsel & ->).
  cbn [snd np_random py_random generator_calls].
  destruct (select_precautions_spec (db w) (py_random w))
    as (sel0 & py0 & Hsel0 & _ & _ & _ & _ & Hraw & Hpos & Hexact).
  rewrite Hsel in Hsel0. injection Hsel0 as <- <-.
  split; [by rewrite predict_stay_length_unfold|].
  split; [done|]. split; [done|]. split; [done|].
  unfold make_suggestions. destruct (generator w) as [g|]; cbn [snd].
  - destruct (try_generate g (generator_calls w)); cbn [snd]; lia.
  - lia.
Qed.

Lemma X8_output_consumption_witness :
  np_random (snd (output 1 intake_world))
    = mkRng (raw (np_random intake_world)) (S (pos (np_random intake_world))) /\
  raw (py_random (snd (output 1 intake_world))) = raw (py_random intake_world) /\
  (pos (py_random intake_world)
     + Nat.min 5 (length (precautions (db intake_world)))
     <= pos (py_random (snd (output 1 intake_world))))%nat /\
  ((length (precautions (db intake_world)) <= 21)%nat ->
   pos (py_random (snd (output 1 intake_world)))
     = (pos (py_random intake_world)
        + Nat.min 5 (length (precautions (db intake_world))))%nat) /\
  generator_calls (snd (output 1 intake_world))
    = (generator_calls intake_world
       + match generator intake_world with Some _ => 1 | None => 0 end)%nat.
Proof.
  eapply X8_output_consumption. vm_compute. reflexivity.
Defined.

(** ** Invariants of the predictions table *)

Lemma output_prediction_keys (u : Z) (w : World) :
  NoDup (map Prediction.id (predictions (db w))) ->
  NoDup (map Prediction.id (predictions (db (snd (output u w))))).
Proof.
  intros Hnd. destruct (output_db u w) as [->|(pd & _ & _ & ->)]; [done|].
  cbn [predictions]. rewrite map_app. cbn [map Prediction.id].
  apply NoDup_app. split; [done|]. split; [|apply NoDup_singleton].
  intros i Hi ->%list_elem_of_singleton.
  pose proof (next_rowid_fresh _ _ Hi). lia.
Qed.

Lemma step_prediction_keys (e : Event) (w : World) :
  NoDup (map Prediction.id (predictions (db w))) ->
  NoDup (map Prediction.id (predictions (db (step e w)))).
Proof.
  destruct e as [[data|]|u|u|d]; cbn [step]; try done.
  apply output_prediction_keys.
Qed.

(** X9: no sequence of requests makes two stored predictions share a primary
    key. *)
Theorem X9_prediction_keys_stay_unique (es : list Event) (w : World) :
  NoDup (map Prediction.id (predictions (db w))) ->
  NoDup (map Prediction.id (predictions (db (run es w)))).
Proof.
  revert w. induction es as [|e es IH]; intros w Hnd; [done|].
  cbn [run foldl]. fold (run es (step e w)).
  by apply IH, step_prediction_keys.
Qed.

Lemma X9_prediction_keys_stay_unique_witness :
  NoDup (map Prediction.id
             (predictions
                (db (run [ViewOutput 1; Elapse 2; ViewOutput 1; ViewOutput 1]
                         intake_world)))).
Proof.
  apply X9_prediction_keys_stay_unique. vm_compute. constructor.
Defined.

Lemma stamps_in_order_snoc (w : World) (row : Prediction.t) (s : Store) :
  stamps_in_order w ->
  Prediction.timestamp row = clock w ->
  predictions s = predictions (db w) ++ [row] ->
  StronglySorted Z.le (map Prediction.timestamp (predictions s)) /\
  Forall (fun p => Prediction.timestamp p <= clock w) (predictions s).
Proof.
  intros [Hsorted Hbound] Hrow ->. split.
  - rewrite map_app. apply StronglySorted_app. split; [|split; [done|]].
    + intros t1 t2 (p & -> & Hp)%list_elem_of_fmap Ht2.
      cbn [map] in Ht2. apply list_elem_of_singleton in Ht2 as ->.
      rewrite Forall_forall in Hbound. rewrite Hrow. by apply Hbound.
    + cbn [map]. repeat constructor.
  - apply Forall_app. split; [done|]. apply Forall_singleton. lia.
Qed.

Lemma output_clock (u : Z) (w : World) :
  clock (snd (output u w)) = clock w.
Proof.
  destruct (session w !! "detection_data") as [pd|] eqn:Hs.
  - destruct (decide (u ∈ map User.id (users (db w)))) as [Hu|Hu].
    + by destruct (output_render u w pd Hs Hu) as (sel & py' & _ & ->).
    + by rewrite (output_account_missing u w pd Hs Hu).
  - by rewrite output_no_intake.
Qed.

Lemma step_stamps_in_order (e : Event) (w : World) :
  stamps_in_order w -> stamps_in_order (step e w).
Proof.
  intros Hinv. destruct e as [[data|]|u|u|d]; cbn [step]; try done.
  - unfold stamps_in_order.
    rewrite output_clock.
    destruct (output_db u w) as [->|(pd & _ & _ & Hdb)]; [done|].
    eapply stamps_in_order_snoc; [done| |by rewrite Hdb]. done.
  - destruct Hinv as [Hsorted Hbound]. split; [done|].
    cbn [set_clock db clock]. eapply Forall_impl; [done|].
    cbn. intros; lia.
Qed.

(** X10: as the store clock only moves forward, rows are stamped in table
    order and never after the current clock, and every sequence of requests
    keeps it so. *)
Theorem X10_timestamps_follow_table_order (es : list Event) (w : World) :
  stamps_in_order w -> stamps_in_order (run es w).
Proof.
  revert w. induction es as [|e es IH]; intros w Hinv; [done|].
  cbn [run foldl]. fold (run es (step e w)).
  by apply IH, step_stamps_in_order.
Qed.

Lemma X10_timestamps_follow_table_order_witness :
  stamps_in_order
    (run [ViewOutput 1; Elapse 2; ViewOutput 1; Elapse 0; ViewOutput 1]
         intake_world).
Proof.
  apply X10_timestamps_follow_table_order.
  split; vm_compute; constructor.
Defined.

(** ** Precautions on the result page *)

Lemma run_precautions (es : list Event) (w : World) :
  precautions (db (run es w)) = precautions (db w).
Proof.
  revert w. induction es as [|e es IH]; intros w; [done|].
  cbn [run foldl]. fold (run es (step e w)).
  by rewrite IH, step_precautions.
Qed.

Lemma init_db_not_empty (s : Store) : precautions (init_db s) <> [].
Proof.
  destruct s as [us [|p precs] ps]; [|done].
  vm_compute. discriminate.
Qed.

Lemma output_rendered_precautions
    (u : Z) (w : World) (days : Z) (precs : list Precaution.t)
    (sugg : list string) (patient_data : PatientData) :
  fst (output u w) = RenderOutput days precs sugg patient_data ->
  length precs = Nat.min 5 (length (precautions (db w))) /\
  precs ⊆ precautions (db w).
Proof.
  intros Hout.
  destruct (session w !! "detection_data") as [pd|] eqn:Hs; cycle 1.
  { by rewrite output_no_intake in Hout. }
  destruct (decide (u ∈ map User.id (users (db w)))) as [Hu|Hu]; cycle 1.
  { by rewrite (output_account_missing u w pd Hs Hu) in Hout. }
  destruct (output_render u w pd Hs Hu) as (sel & py' & Hsel & Hw).
  rewrite Hw in Hout. cbn [fst] in Hout. injection Hout as _ <- _ _.
  destruct (select_precautions_spec (db w) (py_random w))
    as (sel0 & py0 & Hsel0 & Hlen & Hsub & _).
  rewrite Hsel in Hsel0. injection Hsel0 as <- <-. done.
Qed.

(** X11: once the application has started, every rendered result shows at
    least one and at most five stored precautions, whatever happened in
    between; when start-up found the table empty it shows exactly five, each
    with one of the seed texts. *)
Theorem X11_result_page_precautions
    (s : Store) (pipeline : result Generator) (now : Z) (np py : Rng)
    (es : list Event) (u : Z) (days : Z) (precs : list Precaution.t)
    (sugg : list string) (patient_data : PatientData) :
  fst (output u (run es (startup s pipeline now np py)))
    = RenderOutput days precs sugg patient_data ->
  (1 <= length precs <= 5)%nat /\
  precs ⊆ precautions (init_db s) /\
  (precautions s = [] ->
   length precs = 5%nat /\
   Forall (fun p => Precaution.text p ∈ seed_precautions) precs).
Proof.
  intros Hout.
  apply output_rendered_precautions in Hout as [Hlen Hsub].
  rewrite run_precautions in Hlen, Hsub.
  cbn [startup db] in Hlen, Hsub.
  pose proof (init_db_not_empty s) as Hne.
  assert (0 < length (precautions (init_db s)))%nat as Hpos.
  { destruct (precautions (init_db s)); [done|]. simpl. lia. }
  split; [lia|]. split; [done|].
  intros Hempty. destruct s as [us precs0 ps]. cbn [precautions] in Hempty.
  subst precs0. split.
  - rewrite Hlen. reflexivity.
  - apply Forall_forall. intros p Hp. apply Hsub in Hp.
    apply (list_elem_of_fmap_2 Precaution.text) in Hp.
    exact Hp.
Qed.

Lemma X11_result_page_precautions_witness :
  exists precs,
    (1 <= length precs <= 5)%nat /\
    precs ⊆ precautions (init_db (mkStore [sample_user] [] [])) /\
    (@nil Precaution.t = [] ->
     length precs = 5%nat /\
     Forall (fun p => Precaution.text p ∈ seed_precautions) precs).
Proof.
  eexists.
  eapply (X11_result_page_precautions (mkStore [sample_user] [] [])
            (Raise (OtherError "OSError")) 1000 (constant_rng 1)
            (constant_rng 0) [Submit (Some sample_intake)] 1).
  vm_compute. reflexivity.
Defined.

(** X26: with [n] stored precautions the selection step never raises and
    returns [min 5 n] stored precautions, pairwise distinct, and all [n] of
    them when [n < 5]; this holds whichever of its two ways the library
    takes, for every source. *)
Theorem X26_precaution_selection (s : Store) (g : Rng) :
  NoDup (map Precaution.id (precautions s)) ->
  exists selected g',
    select_precautions s g = Ok (selected, g') /\
    length selected = Nat.min 5 (length (precautions s)) /\
    NoDup selected /\
    selected ⊆ precautions s /\
    ((length (precautions s) < 5)%nat -> selected ≡ₚ precautions s).
Proof.
  intros Hkey%primary_key_NoDup.
  destruct (select_precautions_spec s g)
    as (selected & g' & Hsel & Hlen & Hsub & Hnd & Hall & _).
  exists selected, g'. split; [done|]. split; [done|].
  split; [by apply Hnd|]. split; done.
Qed.

Lemma X26_precaution_selection_witness :
  exists selected g',
    select_precautions short_store (constant_rng 4) = Ok (selected, g') /\
    length selected = Nat.min 5 (length (precautions short_store)) /\
    NoDup selected /\
    selected ⊆ precautions short_store /\
    ((length (precautions short_store) < 5)%nat ->
     selected ≡ₚ precautions short_store).
Proof.
  apply X26_precaution_selection.
  apply (bool_decide_unpack _). vm_compute. reflexivity.
Defined.

(** ** The recent history *)

(** X12: the main page shows at most five predictions, each of them a stored
    row of the current account and none of another account, in order of
    non-increasing timestamp; when the account has at most five rows it shows
    them all; the view changes nothing. *)
Theorem X12_main_shows_own_rows (u : Z) (w : World) :
  exists shown,
    main u w = (RenderMain u shown, w) /\
    (length shown <= 5)%nat /\
    (forall p, p ∈ shown ->
               Prediction.user_id p = u /\ p ∈ predictions (db w)) /\
    most_recent_first shown /\
    ((length (filter (fun p => Prediction.user_id p = u)
                     (predictions (db w))) <= 5)%nat ->
     shown ≡ₚ filter (fun p => Prediction.user_id p = u)
                     (predictions (db w))).
Proof.
  exists (recent_predictions u (db w)). split; [reflexivity|].
  unfold recent_predictions. split; [rewrite length_take; lia|]. split.
  - intros p Hp%elem_of_take. destruct Hp as (i & Hi%list_elem_of_lookup_2 & _).
    rewrite order_by_timestamp_desc_Permutation in Hi.
    by apply list_elem_of_filter in Hi.
  - split; [apply recent_predictions_sorted|].
    intros Hfew. rewrite take_ge.
    + apply order_by_timestamp_desc_Permutation.
    + by rewrite order_by_timestamp_desc_Permutation.
Qed.

(** X13: the five rows shown are the most recent ones: a stored row of the
    account that the main page leaves out is stamped no later than any row it
    shows. *)
Theorem X13_hidden_rows_are_older
    (u : Z) (s : Store) (shown hidden : Prediction.t) :
  shown ∈ recent_predictions u s ->
  hidden ∈ predictions s ->
  Prediction.user_id hidden = u ->
  hidden ∉ recent_predictions u s ->
  Prediction.timestamp hidden <= Prediction.timestamp shown.
Proof.
  unfold recent_predictions.
  set (sorted := order_by_timestamp_desc
                   (filter (fun p => Prediction.user_id p = u)
                           (predictions s))).
  intros Hshown Hstored Hu Hhidden.
  assert (hidden ∈ sorted) as Hin.
  { unfold sorted. rewrite order_by_timestamp_desc_Permutation.
    by apply list_elem_of_filter. }
  rewrite <-(take_drop 5 sorted) in Hin.
  apply elem_of_app in Hin as [Hin|Hin]; [done|].
  pose proof (order_by_timestamp_desc_sorted
                (filter (fun p => Prediction.user_id p = u) (predictions s)))
    as Hsorted.
  fold sorted in Hsorted. unfold most_recent_first in Hsorted.
  rewrite <-(take_drop 5 sorted) in Hsorted.
  exact (StronglySorted_app_1_elem_of _ _ _ _ _ Hsorted Hshown Hin).
Qed.

Lemma X13_hidden_rows_are_older_witness :
  Prediction.timestamp
    (Prediction.mk 6 1 70 "high" 3 "98.6" "120/80" "95" 10 1000)
  <= Prediction.timestamp
       (Prediction.mk 7 1 70 "high" 3 "98.6" "120/80" "95" 10 1004).
Proof.
  apply (X13_hidden_rows_are_older 1 (db (two_runs 1 4 busy_world))).
  - apply (bool_decide_unpack _). vm_compute. reflexivity.
  - apply (bool_decide_unpack _). vm_compute. reflexivity.
  - reflexivity.
  - apply (bool_decide_unpack _). vm_compute. reflexivity.
Defined.

(** ** Generated suggestions *)

Lemma clean_items_ok (items : list (gmap string string)) (texts : list string) :
  Forall2 (fun item t => item !! "generated_text" = Some t) items texts ->
  clean_items items
    = Ok (map (fun t => str_strip (str_remove t prompt)) texts).
Proof.
  induction 1 as [|item t items texts Hitem _ IH]; [done|].
  cbn [clean_items map]. unfold clean_item. rewrite Hitem.
  cbn [mbind result_bind]. rewrite IH. reflexivity.
Qed.

Lemma clean_items_missing_key (items : list (gmap string string))
    (item : gmap string string) :
  item ∈ items ->
  item !! "generated_text" = None ->
  exists e, clean_items items = Raise e.
Proof.
  induction items as [|item' items IH]; [by intros ?%elem_of_nil|].
  intros [->|Hin]%elem_of_cons Hnone; cbn [clean_items]; unfold clean_item.
  - rewrite Hnone. by eexists.
  - destruct (item' !! "generated_text"); [|by eexists].
    cbn [mbind result_bind].
    destruct (IH Hin Hnone) as [e ->]. by eexists.
Qed.

(** X14: when the generator answers with dictionaries that all hold a
    ['generated_text'], the suggestions are these texts, each with the prompt
    removed and then stripped, one per dictionary and in the same order:
    as many as the generator returned, whether or not that is five. *)
Theorem X14_generated_suggestions
    (g : Generator) (calls : nat) (items : list (gmap string string))
    (texts : list string) :
  g calls prompt 5%nat 60%nat = Ok items ->
  Forall2 (fun item t => item !! "generated_text" = Some t) items texts ->
  make_suggestions (Some g) calls
    = (map (fun t => str_strip (str_remove t prompt)) texts, S calls).
Proof.
  intros Hg Hitems. unfold make_suggestions, try_generate. rewrite Hg.
  cbn [mbind result_bind]. by rewrite (clean_items_ok items texts Hitems).
Qed.

Lemma X14_generated_suggestions_witness :
  make_suggestions
    (Some (fun _ _ _ _ =>
             Ok [ {[ "generated_text" :=
                       "Medical advice for reducing hospital stay: walk daily. " ]};
                  {[ "generated_text" := "  Sleep well" ]} ]))
    0
  = (map (fun t => str_strip (str_remove t prompt))
         ["Medical advice for reducing hospital stay: walk daily. ";
          "  Sleep well"], 1%nat).
Proof.
  eapply X14_generated_suggestions.
  - reflexivity.
  - repeat constructor.
Defined.

(** X15: the suggestions are all or nothing: if a single dictionary of the
    generator's answer lacks ['generated_text'], the texts of the others are
    discarded and the five fallback strings are used. *)
Theorem X15_one_bad_item_means_fallback
    (g : Generator) (calls : nat) (items : list (gmap string string))
    (item : gmap string string) :
  g calls prompt 5%nat 60%nat = Ok items ->
  item ∈ items ->
  item !! "generated_text" = None ->
  make_suggestions (Some g) calls = (fallback_suggestions, S calls).
Proof.
  intros Hg Hin Hnone. unfold make_suggestions, try_generate. rewrite Hg.
  cbn [mbind result_bind].
  by destruct (clean_items_missing_key items item Hin Hnone) as [e ->].
Qed.

Lemma X15_one_bad_item_means_fallback_witness :
  make_suggestions
    (Some (fun _ _ _ _ =>
             Ok [ {[ "generated_text" := "Walk daily." ]};
                  {[ "text" := "Sleep well." ]} ]))
    0
  = (fallback_suggestions, 1%nat).
Proof.
  eapply (X15_one_bad_item_means_fallback _ _ _ {[ "text" := "Sleep well." ]}).
  - reflexivity.
  - apply list_elem_of_further, list_elem_of_here.
  - reflexivity.
Defined.

Lemma remove_from_skip (old x t : string) :
  remove_from old (String.length x) (String.app x t) = remove_from old 0 t.
Proof. induction x as [|c x IH]; [done|exact IH]. Qed.

Lemma prefix_app (x t : string) : String.prefix x (String.app x t) = true.
Proof.
  induction x as [|c x IH]; [by destruct t|].
  change (String.app (String c x) t) with (String c (String.app x t)).
  cbn [String.prefix]. destruct (ascii_dec c c); [exact IH|done].
Qed.

Lemma str_remove_echo (old t : string) :
  str_remove (String.app old t) old = str_remove t old.
Proof.
  destruct old as [|c x]; [done|].
  unfold str_remove.
  change (String.app (String c x) t) with (String c (String.app x t)).
  cbn [remove_from].
  change (String c (String.app x t)) with (String.app (String c x) t).
  rewrite prefix_app. cbn [String.length Nat.sub]. rewrite Nat.sub_0_r.
  apply remove_from_skip.
Qed.

(** X16: a completion that echoes the prompt at its start is cleaned like
    the completion without the echo. *)
Theorem X16_echoed_prompt_is_dropped
    (item : gmap string string) (t : string) :
  clean_item (<["generated_text" := String.app prompt t]> item)
  = clean_item (<["generated_text" := t]> item).
Proof.
  unfold clean_item. rewrite !lookup_insert_eq.
  by rewrite str_remove_echo.
Qed.

(** ** Stripping *)

Lemma list_ascii_of_rev_app (s t : string) :
  list_ascii_of_string (String.rev_app s t)
  = List.rev (list_ascii_of_string s) ++ list_ascii_of_string t.
Proof.
  revert t. induction s as [|c s IH]; intros t; [done|].
  cbn [String.rev_app list_ascii_of_string List.rev].
  rewrite IH. cbn [list_ascii_of_string]. by rewrite <-app_assoc.
Qed.

Lemma list_ascii_of_rev (s : string) :
  list_ascii_of_string (String.rev s) = List.rev (list_ascii_of_string s).
Proof.
  unfold String.rev. rewrite list_ascii_of_rev_app. apply app_nil_r.
Qed.

Lemma starts_with_space_list (s : string) :
  starts_with_space s =
  match list_ascii_of_string s with
  | c :: _ => py_isspace c
  | [] => false
  end.
Proof. by destruct s. Qed.

(** What [str_lstrip] takes away is whitespace, and what it leaves does not
    begin with whitespace. *)
Lemma str_lstrip_split (s : string) :
  exists spaces,
    list_ascii_of_string s = spaces ++ list_ascii_of_string (str_lstrip s) /\
    Forall (fun c => py_isspace c = true) spaces /\
    starts_with_space (str_lstrip s) = false.
Proof.
  induction s as [|c s IH].
  - by exists [].
  - cbn [str_lstrip]. destruct (py_isspace c) eqn:Hc.
    + destruct IH as (spaces & Heq & Hsp & Hstart).
      exists (c :: spaces). cbn [list_ascii_of_string]. rewrite Heq.
      split; [done|]. split; [by constructor|done].
    + exists []. cbn [starts_with_space]. by rewrite Hc.
Qed.

(** X17: [str_strip] removes nothing but whitespace from the two ends, and
    what it returns neither begins nor ends with whitespace; so no cleaned
    suggestion does. *)
Theorem X17_strip_removes_surrounding_space
    (s : string) (item : gmap string string) :
  (exists before after,
      list_ascii_of_string s
        = before ++ list_ascii_of_string (str_strip s) ++ after /\
      Forall (fun c => py_isspace c = true) before /\
      Forall (fun c => py_isspace c = true) after) /\
  starts_with_space (str_strip s) = false /\
  ends_with_space (str_strip s) = false /\
  (exists t, clean_item (<["generated_text" := s]> item) = Ok t /\
             starts_with_space t = false /\ ends_with_space t = false).
Proof.
  assert (forall s0,
    (exists before after,
      list_ascii_of_string s0
        = before ++ list_ascii_of_string (str_strip s0) ++ after /\
      Forall (fun c => py_isspace c = true) before /\
      Forall (fun c => py_isspace c = true) after) /\
    starts_with_space (str_strip s0) = false /\
    ends_with_space (str_strip s0) = false) as Hstrip.
  { clear s. intros s. unfold str_strip, ends_with_space.
    destruct (str_lstrip_split s) as (before & Hs & Hbefore & Hstart).
    set (a := str_lstrip s) in *.
    destruct (str_lstrip_split (String.rev a)) as (after' & Ha & Hafter & Hend).
    set (b := str_lstrip (String.rev a)) in *.
    rewrite list_ascii_of_rev in Ha.
    assert (list_ascii_of_string a
            = list_ascii_of_string (String.rev b) ++ List.rev after') as Ha'.
    { rewrite list_ascii_of_rev.
      rewrite <-(rev_involutive (list_ascii_of_string a)), Ha.
      apply rev_app_distr. }
    split; [|split].
    - exists before, (List.rev after'). rewrite Hs, Ha'.
      split; [done|]. split; [done|].
      apply Forall_forall. intros c Hc%list_elem_of_In%in_rev%list_elem_of_In.
      rewrite Forall_forall in Hafter. by apply Hafter.
    - rewrite starts_with_space_list in Hstart |- *. rewrite Ha' in Hstart.
      by destruct (list_ascii_of_string (String.rev b)).
    - rewrite starts_with_space_list, list_ascii_of_rev, list_ascii_of_rev,
        rev_involutive, <-starts_with_space_list. exact Hend. }
  destruct (Hstrip s) as (Hsplit & Hstart & Hend).
  split; [done|]. split; [done|]. split; [done|].
  unfold clean_item. rewrite lookup_insert_eq. eexists. split; [done|].
  destruct (Hstrip (str_remove s prompt)) as (_ & ? & ?). done.
Qed.

(** ** Accounts *)

Lemma find_by_email_Some (email : string) (s : Store) (u : User.t) :
  find_by_email email s = Some u -> u ∈ users s /\ User.email u = email.
Proof.
  unfold find_by_email. intros [Hin Heq]%find_some.
  split; [by apply list_elem_of_In|by apply String.eqb_eq].
Qed.

Lemma find_by_email_None (email : string) (s : Store) :
  find_by_email email s = None <-> email ∉ map User.email (users s).
Proof.
  unfold find_by_email. split.
  - intros Hnone (u & -> & Hu)%list_elem_of_fmap.
    apply list_elem_of_In in Hu.
    pose proof (find_none _ _ Hnone u Hu) as Hneq. cbn in Hneq.
    by rewrite String.eqb_refl in Hneq.
  - intros Hnot. destruct (List.find _ (users s)) as [u|] eqn:Hfind; [|done].
    apply find_some in Hfind as [Hin Heq%String.eqb_eq].
    destruct Hnot. apply list_elem_of_fmap. exists u.
    split; [done|by apply list_elem_of_In].
Qed.

Lemma find_by_email_new (email : string) (us : list User.t) (u : User.t)
    (precs : list Precaution.t) (ps : list Prediction.t) :
  email ∉ map User.email us ->
  User.email u = email ->
  find_by_email email (mkStore (us ++ [u]) precs ps) = Some u.
Proof.
  unfold find_by_email. cbn [users]. intros Hnot Heq.
  induction us as [|v us IH]; cbn [app List.find].
  - by rewrite Heq, String.eqb_refl.
  - cbn [map] in Hnot. apply not_elem_of_cons in Hnot as [Hv Hnot].
    destruct (String.eqb (User.email v) email) eqn:Hve.
    + apply String.eqb_eq in Hve. by destruct Hv.
    + by apply IH.
Qed.

Lemma load_user_Some (user_id : Z) (s : Store) (u : User.t) :
  load_user user_id s = Some u -> u ∈ users s /\ User.id u = user_id.
Proof.
  unfold load_user. intros [Hin Heq]%find_some.
  split; [by apply list_elem_of_In|by apply Z.eqb_eq].
Qed.

Lemma load_user_new (us : list User.t) (u : User.t)
    (precs : list Precaution.t) (ps : list Prediction.t) :
  User.id u ∉ map User.id us ->
  load_user (User.id u) (mkStore (us ++ [u]) precs ps) = Some u.
Proof.
  unfold load_user. cbn [users]. intros Hnot.
  induction us as [|v us IH]; cbn [app List.find].
  - by rewrite Z.eqb_refl.
  - cbn [map] in Hnot. apply not_elem_of_cons in Hnot as [Hv Hnot].
    destruct (User.id v =? User.id u) eqn:Hve.
    + apply Z.eqb_eq in Hve. by destruct Hv.
    + by apply IH.
Qed.

Lemma add_user_new (s : Store) (user : Z -> User.t) :
  User.email (user (next_rowid (map User.id (users s))))
    ∉ map User.email (users s) ->
  add_user s user =
  Ok (mkStore (users s ++ [user (next_rowid (map User.id (users s)))])
              (precautions s) (predictions s)).
Proof.
  intros Hnot. unfold add_user.
  destruct (existsb _ (users s)) eqn:Hex; [|done].
  apply existsb_exists in Hex as (u & Hin & Heq%String.eqb_eq).
  destruct Hnot. apply list_elem_of_fmap. exists u.
  split; [done|by apply list_elem_of_In].
Qed.

(** What a registration with a new address does. *)
Lemma register_new (h : PasswordHasher) (salt : string)
    (data : RegistrationData) (st : Site) :
  form_email data ∉ map User.email (users (db (world st))) ->
  register h salt (Some data) st =
  (SeeOther "login",
   [mkFlash "Registration successful! Please login." "success"],
   mkSite
     (set_db
        (mkStore
           (users (db (world st)) ++
              [User.mk (next_rowid (map User.id (users (db (world st)))))
                 (form_name data) (form_email data) (form_age data)
                 (form_contact data)
                 (generate_password_hash h salt (form_password data))])
           (precautions (db (world st))) (predictions (db (world st))))
        (world st))
     (logged_in_id st)).
Proof.
  intros Hnew. unfold register.
  rewrite (proj2 (find_by_email_None _ _) Hnew).
  cbv zeta. rewrite add_user_new; [reflexivity|]. exact Hnew.
Qed.

Lemma register_taken (h : PasswordHasher) (salt : string)
    (data : RegistrationData) (st : Site) :
  form_email data ∈ map User.email (users (db (world st))) ->
  register h salt (Some data) st =
  (SeeOther "login",
   [mkFlash "Email already registered. Please login." "danger"], st).
Proof.
  intros Htaken. unfold register.
  destruct (find_by_email _ _) eqn:Hfind; [done|].
  by apply find_by_email_None in Hfind.
Qed.

Lemma accounts_wf_add (s : Store) (u : User.t) :
  accounts_wf s ->
  User.id u = next_rowid (map User.id (users s)) ->
  User.email u ∉ map User.email (users s) ->
  accounts_wf (mkStore (users s ++ [u]) (precautions s) (predictions s)).
Proof.
  intros (Hids & Hemails & Hrefs) Hid Hemail.
  unfold accounts_wf. cbn [users predictions]. rewrite !map_app. cbn [map].
  split; [|split].
  - apply NoDup_app. split; [done|]. split; [|apply NoDup_singleton].
    intros i Hi ->%list_elem_of_singleton.
    pose proof (next_rowid_fresh _ _ Hi). lia.
  - apply NoDup_app. split; [done|]. split; [|apply NoDup_singleton].
    by intros e He ->%list_elem_of_singleton.
  - eapply Forall_impl; [exact Hrefs|]. cbn. intros p Hp.
    apply elem_of_app. by left.
Qed.

Lemma register_accounts_wf (h : PasswordHasher) (salt : string)
    (form : option RegistrationData) (st : Site) :
  accounts_wf (db (world st)) ->
  accounts_wf (db (world (snd (register h salt form st)))).
Proof.
  intros Hwf. destruct form as [data|]; [|done].
  destruct (decide (form_email data ∈ map User.email (users (db (world st)))))
    as [Htaken|Hnew].
  - by rewrite register_taken.
  - rewrite register_new by done. cbn [snd world set_db db].
    by apply accounts_wf_add.
Qed.

(** X18: registration never ends in a server error, although the store
    would reject a second row with a stored address: the view looks the
    address up first.  It adds no account when the address is taken, and
    otherwise exactly one, at the end of the table, while account keys and
    addresses stay unique. *)
Theorem X18_register_is_safe (h : PasswordHasher) (salt : string)
    (form : option RegistrationData) (st : Site) :
  accounts_wf (db (world st)) ->
  (forall e, fst (fst (register h salt form st)) <> ServerError e) /\
  accounts_wf (db (world (snd (register h salt form st)))) /\
  (users (db (world (snd (register h salt form st)))) = users (db (world st))
   \/ exists u, users (db (world (snd (register h salt form st))))
                = users (db (world st)) ++ [u]).
Proof.
  intros Hwf. split; [|split; [by apply register_accounts_wf|]].
  - intros e. destruct form as [data|]; [|done].
    destruct (decide (form_email data
                        ∈ map User.email (users (db (world st)))))
      as [Htaken|Hnew].
    + by rewrite register_taken.
    + by rewrite register_new.
  - destruct form as [data|]; [|by left].
    destruct (decide (form_email data
                        ∈ map User.email (users (db (world st)))))
      as [Htaken|Hnew].
    + left. by rewrite register_taken.
    + right. rewrite register_new by done. by eexists.
Qed.

Lemma X18_register_is_safe_witness :
  (forall e, fst (fst (register sample_hasher "pepper"
                         (Some sample_registration) fresh_site))
             <> ServerError e) /\
  accounts_wf (db (world (snd (register sample_hasher "pepper"
                                 (Some sample_registration) fresh_site)))) /\
  (users (db (world (snd (register sample_hasher "pepper"
                            (Some sample_registration) fresh_site))))
     = users (db (world fresh_site))
   \/ exists u, users (db (world (snd (register sample_hasher "pepper"
                            (Some sample_registration) fresh_site))))
                = users (db (world fresh_site)) ++ [u]).
Proof.
  apply X18_register_is_safe.
  repeat split; vm_compute; repeat constructor; set_solver.
Defined.

(** X19: an address that belongs to an account cannot be registered again:
    whatever the other fields of the form, the browser is sent to the login
    page with a warning and the session and the store stay as they were. *)
Theorem X19_taken_address_changes_nothing (h : PasswordHasher) (salt : string)
    (data : RegistrationData) (st : Site) (u : User.t) :
  u ∈ users (db (world st)) ->
  User.email u = form_email data ->
  register h salt (Some data) st =
  (SeeOther "login",
   [mkFlash "Email already registered. Please login." "danger"], st).
Proof.
  intros Hu Hemail. apply register_taken.
  rewrite <-Hemail. by apply list_elem_of_fmap_2.
Qed.

Lemma X19_taken_address_changes_nothing_witness :
  register sample_hasher "pepper"
    (Some (mkRegistrationData "Someone Else" "ada@example.org" 30
                              "15550000000" "secret1"))
    fresh_site
  = (SeeOther "login",
     [mkFlash "Email already registered. Please login." "danger"],
     fresh_site).
Proof.
  apply (X19_taken_address_changes_nothing _ _ _ _ sample_user).
  - apply list_elem_of_here.
  - reflexivity.
Defined.

(** X20: registration and login fit together.  If the hasher accepts the
    password it hashed, then after registering a new address a login with
    that address and password succeeds, and the session then runs for the
    new account, which carries the registered name, age and contact. *)
Theorem X20_register_then_login (h : PasswordHasher) (salt : string)
    (data : RegistrationData) (st : Site) :
  (forall s p, check_password_hash h (generate_password_hash h s p) p = true) ->
  form_email data ∉ map User.email (users (db (world st))) ->
  exists st' u,
    login h (Some (mkLoginData (form_email data) (form_password data)))
          (snd (register h salt (Some data) st))
      = (SeeOther "main", [mkFlash "Login successful!" "success"], st') /\
    current_user st' = Some u /\
    (User.id u ∉ map User.id (users (db (world st)))) /\
    User.name u = form_name data /\
    User.email u = form_email data /\
    User.age u = form_age data /\
    User.contact u = form_contact data.
Proof.
  intros Hsound Hnew. rewrite register_new by done. cbn [snd].
  unfold login. cbn [world set_db db login_email login_password].
  rewrite (find_by_email_new (form_email data)) by done.
  unfold check_password. cbn [User.password_hash]. rewrite Hsound.
  eexists _, _. split; [reflexivity|].
  assert (next_rowid (map User.id (users (db (world st))))
            ∉ map User.id (users (db (world st)))) as Hfresh.
  { intros Hin%next_rowid_fresh. lia. }
  unfold current_user. cbn [logged_in_id world set_db db User.id].
  split.
  - exact (load_user_new (users (db (world st)))
             (User.mk _ _ _ _ _ _) _ _ Hfresh).
  - by repeat split.
Qed.

Lemma string_app_assoc (x y z : string) :
  String.app (String.app x y) z = String.app x (String.app y z).
Proof.
  induction x as [|c x IH]; [done|].
  change (String c (String.app (String.app x y) z)
          = String c (String.app x (String.app y z))).
  by rewrite IH.
Qed.

Lemma sample_hasher_sound (salt password : string) :
  check_password_hash sample_hasher
    (generate_password_hash sample_hasher salt password) password = true.
Proof.
  cbn [sample_hasher check_password_hash generate_password_hash].
  rewrite <-(string_app_assoc password "$" salt).
  rewrite <-(string_app_assoc "toy$" (String.app password "$") salt).
  apply prefix_app.
Qed.

Lemma X20_register_then_login_witness :
  exists st' u,
    login sample_hasher
          (Some (mkLoginData (form_email sample_registration)
                             (form_password sample_registration)))
          (snd (register sample_hasher "pepper" (Some sample_registration)
                         fresh_site))
      = (SeeOther "main", [mkFlash "Login successful!" "success"], st') /\
    current_user st' = Some u /\
    (User.id u ∉ map User.id (users (db (world fresh_site)))) /\
    User.name u = form_name sample_registration /\
    User.email u = form_email sample_registration /\
    User.age u = form_age sample_registration /\
    User.contact u = form_contact sample_registration.
Proof.
  apply X20_register_then_login.
  - apply sample_hasher_sound.
  - vm_compute. intros Hin. apply list_elem_of_In in Hin.
    destruct Hin as [Heq|[]]. discriminate Heq.
Defined.

(** X21: a login is refused, with the same message for an unknown address
    and for a wrong password, whenever no account with that address accepts
    the password; the session is then left as it was, so nobody is logged in
    or out by a failed attempt. *)
Theorem X21_failed_login_changes_nothing (h : PasswordHasher)
    (data : LoginData) (st : Site) :
  (forall u, u ∈ users (db (world st)) ->
             User.email u = login_email data ->
             check_password h u (login_password data) = false) ->
  login h (Some data) st =
  (Show LoginPage, [mkFlash "Invalid email or password." "danger"], st).
Proof.
  intros Hwrong. unfold login.
  destruct (find_by_email _ _) as [u|] eqn:Hfind; [|done].
  apply find_by_email_Some in Hfind as [Hin Hemail].
  by rewrite (Hwrong u Hin Hemail).
Qed.

Lemma X21_failed_login_changes_nothing_witness :
  login sample_hasher (Some (mkLoginData "ada@example.org" "guess")) fresh_site
  = (Show LoginPage, [mkFlash "Invalid email or password." "danger"],
     fresh_site).
Proof.
  apply X21_failed_login_changes_nothing.
  intros u Hu _. vm_compute in Hu. apply list_elem_of_In in Hu.
  destruct Hu as [<-|[]]. reflexivity.
Defined.

Lemma guarded_unauthorized (view : Z -> World -> Response * World) (st : Site) :
  current_user st = None -> guarded view st = (Redirect "login", st).
Proof.
  unfold current_user, guarded, login_required. destruct st as [w [i|]].
  - cbn [logged_in_id world]. by intros ->.
  - done.
Qed.

Lemma guarded_authorized (view : Z -> World -> Response * World) (st : Site)
    (u : User.t) :
  current_user st = Some u ->
  guarded view st =
  (fst (view (User.id u) (world st)),
   mkSite (snd (view (User.id u) (world st))) (logged_in_id st)).
Proof.
  unfold current_user, guarded, login_required. destruct st as [w [i|]].
  - cbn [logged_in_id world]. intros ->. by destruct (view (User.id u) w).
  - done.
Qed.

(** X22: without a current account, because nobody is logged in or because
    the id in the session matches no stored account, a guarded view is not
    run at all: the intake form, the result view and the main page answer
    with a redirect to the login page, as does logout, and nothing changes. *)
Theorem X22_guard_stops_anonymous_requests
    (form : option PatientData) (st : Site) :
  current_user st = None ->
  guarded (fun _ => detection form) st = (Redirect "login", st) /\
  guarded output st = (Redirect "login", st) /\
  guarded main st = (Redirect "login", st) /\
  logout st = (SeeOther "login", [], st).
Proof.
  intros Hnone. rewrite !guarded_unauthorized by done.
  repeat split. unfold logout. by rewrite Hnone.
Qed.

Lemma X22_guard_stops_anonymous_requests_witness :
  guarded (fun _ => detection (Some sample_intake)) (mkSite fresh_world (Some 9))
    = (Redirect "login", mkSite fresh_world (Some 9)) /\
  guarded output (mkSite fresh_world (Some 9))
    = (Redirect "login", mkSite fresh_world (Some 9)) /\
  guarded main (mkSite fresh_world (Some 9))
    = (Redirect "login", mkSite fresh_world (Some 9)) /\
  logout (mkSite fresh_world (Some 9))
    = (SeeOther "login", [], mkSite fresh_world (Some 9)).
Proof.
  apply X22_guard_stops_anonymous_requests. reflexivity.
Defined.

(** X23: behind the guard the result view never ends in a server error: the
    account it runs for was read from the store in the same request, and a
    sample of [min 5 n] out of [n] precautions cannot fail.  The answer is a
    redirect to the login page or to the intake form, or a rendered result. *)
Theorem X23_guarded_output_never_fails (st : Site) :
  fst (guarded output st) = Redirect "login" \/
  fst (guarded output st) = Redirect "detection" \/
  exists days precs sugg patient_data,
    fst (guarded output st) = RenderOutput days precs sugg patient_data.
Proof.
  destruct (current_user st) as [u|] eqn:Hcur; cycle 1.
  { left. by rewrite guarded_unauthorized. }
  right. rewrite (guarded_authorized output st u Hcur). cbn [fst].
  assert (User.id u ∈ map User.id (users (db (world st)))) as Hu.
  { unfold current_user in Hcur. destruct (logged_in_id st) as [i|]; [|done].
    apply load_user_Some in Hcur as [Hin _]. by apply list_elem_of_fmap_2. }
  destruct (session (world st) !! "detection_data") as [pd|] eqn:Hs.
  - right. destruct (output_render _ _ pd Hs Hu) as (sel & py' & _ & ->).
    by eexists _, _, _, _.
  - left. by rewrite output_no_intake.
Qed.

(** X24: logout does not clear the intake.  When an account logs out and
    another one logs in from the same browser session, the result view
    renders the intake the first account left behind and stores it as a
    prediction of the second account. *)
Theorem X24_intake_survives_logout (h : PasswordHasher)
    (st : Site) (u1 u2 : User.t) (patient_data : PatientData)
    (password : string) :
  current_user st = Some u1 ->
  session (world st) !! "detection_data" = Some patient_data ->
  find_by_email (User.email u2) (db (world st)) = Some u2 ->
  load_user (User.id u2) (db (world st)) = Some u2 ->
  check_password h u2 password = true ->
  exists days precs sugg row,
    fst (guarded output
           (serve h [GetLogout;
                     PostLogin (Some (mkLoginData (User.email u2) password))]
                  st))
      = RenderOutput days precs sugg patient_data /\
    predictions
      (db (world (serve h [GetLogout;
                           PostLogin (Some (mkLoginData (User.email u2)
                                                        password));
                           GetOutput] st)))
      = predictions (db (world st)) ++ [row] /\
    Prediction.user_id row = User.id u2 /\
    intake_of row = patient_data.
Proof.
  intros Hcur Hs Hfind Hload Hpw.
  assert (serve h [GetLogout;
                   PostLogin (Some (mkLoginData (User.email u2) password))] st
          = mkSite (world st) (Some (User.id u2))) as Hst.
  { unfold serve. cbn [foldl handle]. unfold logout. rewrite Hcur.
    cbn [snd]. unfold login. cbn [world login_email login_password].
    by rewrite Hfind, Hpw. }
  assert (current_user (mkSite (world st) (Some (User.id u2))) = Some u2)
    as Hcur2 by exact Hload.
  assert (User.id u2 ∈ map User.id (users (db (world st)))) as Hu2.
  { apply load_user_Some in Hload as [Hin _]. by apply list_elem_of_fmap_2. }
  destruct (output_render (User.id u2) (world st) patient_data Hs Hu2)
    as (sel & py' & _ & Hout).
  eexists _, _, _, _. split; [|split; [|split]].
  - rewrite Hst, (guarded_authorized output _ u2 Hcur2). cbn [fst world].
    rewrite Hout. reflexivity.
  - change (serve h [GetLogout;
                     PostLogin (Some (mkLoginData (User.email u2) password));
                     GetOutput] st)
      with (handle h GetOutput
              (serve h [GetLogout;
                        PostLogin (Some (mkLoginData (User.email u2)
                                                     password))] st)).
    rewrite Hst. cbn [handle].
    rewrite (guarded_authorized output _ u2 Hcur2). cbn [snd world].
    rewrite Hout. reflexivity.
  - reflexivity.
  - apply intake_of_row.
Qed.

Lemma X24_intake_survives_logout_witness :
  exists days precs sugg row,
    fst (guarded output
           (serve sample_hasher
                  [GetLogout;
                   PostLogin (Some (mkLoginData (User.email second_user)
                                                "correct horse"))]
                  shared_site))
      = RenderOutput days precs sugg sample_intake /\
    predictions
      (db (world (serve sample_hasher
                        [GetLogout;
                         PostLogin (Some (mkLoginData (User.email second_user)
                                                      "correct horse"));
                         GetOutput] shared_site)))
      = predictions (db (world shared_site)) ++ [row] /\
    Prediction.user_id row = User.id second_user /\
    intake_of row = sample_intake.
Proof.
  apply (X24_intake_survives_logout sample_hasher shared_site sample_user
           second_user sample_intake "correct horse"); reflexivity.
Defined.

(** ** Consistency of the store over a browser session *)

Lemma output_accounts_wf (u : Z) (w : World) :
  accounts_wf (db w) -> accounts_wf (db (snd (output u w))).
Proof.
  intros Hwf. destruct (output_db u w) as [->|(pd & _ & Hu & ->)]; [done|].
  destruct Hwf as (Hids & Hemails & Hrefs).
  unfold accounts_wf. cbn [users predictions].
  split; [done|]. split; [done|].
  apply Forall_app. split; [done|]. by apply Forall_singleton.
Qed.

Lemma output_users (u : Z) (w : World) :
  users (db (snd (output u w))) = users (db w).
Proof. by destruct (output_db u w) as [->|(pd & _ & _ & ->)]. Qed.

Lemma handle_accounts_wf (h : PasswordHasher) (r : Request) (st : Site) :
  accounts_wf (db (world st)) ->
  accounts_wf (db (world (handle h r st))) /\
  users (db (world st)) `prefix_of` users (db (world (handle h r st))).
Proof.
  intros Hwf. destruct r as [|salt form|form| |form| | |d]; cbn [handle].
  - done.
  - split; [by apply register_accounts_wf|].
    destruct form as [data|]; [|done].
    destruct (decide (form_email data
                        ∈ map User.email (users (db (world st)))))
      as [Htaken|Hnew].
    + by rewrite register_taken.
    + rewrite register_new by done. cbn [snd world set_db db users].
      by apply prefix_app_r.
  - unfold login. destruct form as [data|]; [|done].
    destruct (find_by_email _ _) as [u|]; [|done].
    by destruct (check_password h u (login_password data)).
  - unfold logout. by destruct (current_user st).
  - destruct (current_user st) as [u|] eqn:Hcur.
    + rewrite (guarded_authorized _ st u Hcur). by destruct form.
    + by rewrite guarded_unauthorized.
  - destruct (current_user st) as [u|] eqn:Hcur.
    + rewrite (guarded_authorized _ st u Hcur). cbn [snd world].
      split; [by apply output_accounts_wf|by rewrite output_users].
    + by rewrite guarded_unauthorized.
  - destruct (current_user st) as [u|] eqn:Hcur.
    + by rewrite (guarded_authorized _ st u Hcur).
    + by rewrite guarded_unauthorized.
  - done.
Qed.

(** X25: over any sequence of requests of a browser session the store stays
    consistent: account keys are unique, e-mail addresses are unique, every
    prediction belongs to a stored account, and accounts are only ever added
    at the end of the table, never changed or removed. *)
Theorem X25_store_stays_consistent (h : PasswordHasher) (rs : list Request)
    (st : Site) :
  accounts_wf (db (world st)) ->
  accounts_wf (db (world (serve h rs st))) /\
  users (db (world st)) `prefix_of` users (db (world (serve h rs st))).
Proof.
  revert st. induction rs as [|r rs IH]; intros st Hwf; [done|].
  cbn [serve foldl]. fold (serve h rs (handle h r st)).
  destruct (handle_accounts_wf h r st Hwf) as [Hwf' Hpre].
  destruct (IH _ Hwf') as [Hwf'' Hpre'].
  split; [done|]. by etrans.
Qed.

Lemma X25_store_stays_consistent_witness :
  accounts_wf
    (db (world (serve sample_hasher
                  [PostRegister "pepper" (Some sample_registration);
                   PostLogin (Some (mkLoginData "noor@example.org"
                                                "correct horse"));
                   PostDetection (Some sample_intake); GetOutput; Wait 3;
                   GetOutput; GetMain; GetLogout]
                  fresh_site))) /\
  users (db (world fresh_site))
    `prefix_of`
    users (db (world (serve sample_hasher
                  [PostRegister "pepper" (Some sample_registration);
                   PostLogin (Some (mkLoginData "noor@example.org"
                                                "correct horse"));
                   PostDetection (Some sample_intake); GetOutput; Wait 3;
                   GetOutput; GetMain; GetLogout]
                  fresh_site))).
Proof.
  apply X25_store_stays_consistent.
  repeat split; vm_compute; repeat constructor; set_solver.
Defined.
